(** * Aggregation Ooni Command-line (AOC) and its watcher (AOCW)

    A shallow embedding of [AOCBackend.py] (the per-day and per-range
    statistics, and the two fetch functions of the OONI API) and of the
    per-input body of [AOCW.run] together with [PermaConfig.load] from
    [AOCW_lib.py].

    Modelling conventions:
    - Python [int] counts are [Z];
    - Python [float] ratios are rationals [Q], compared with [Qeq_bool]
      where the source uses [==] and with [Qltb] where it uses [<]/[>];
      their arithmetic is exact: the rounding of float division and
      subtraction is not modelled;
    - a [datetime] is a calendar day number and a second-of-day;
    - a Python exception that escapes a function is the [Raise] outcome;
      the error strings the fetch functions return are [ErrStr]. *)

From Stdlib Require Import ZArith QArith String List Lia.
From stdpp Require Import base gmap strings.
Import ListNotations.
Open Scope Z_scope.

(** ** Dates *)

(** A [datetime]: calendar day (days since an epoch) and second of day. *)
Record datetime := mk_dt { dt_day : Z; dt_sec : Z }.

(** [datetime] ordering, lexicographic as Python's. *)
Definition dt_leb (a b : datetime) : bool :=
  (dt_day a <? dt_day b) || ((dt_day a =? dt_day b) && (dt_sec a <=? dt_sec b)).

(** Midnight of a calendar day: [datetime(year=.., month=.., day=..)]. *)
Definition midnight (d : Z) : datetime := mk_dt d 0.

(** Strict comparison of rationals, Python's [<] on floats. *)
Definition Qltb (a b : Q) : bool := negb (Qle_bool b a).

(** ** Outcomes of a Python call *)

Inductive outcome (A : Type) :=
| Ret (a : A)            (* normal return of a value *)
| ErrStr (e : string)    (* return of one of the error strings *)
| Raise.                 (* an exception escapes the call *)
Arguments Ret {A} a.
Arguments ErrStr {A} e.
Arguments Raise {A}.

Definition NETWORK_ERROR : string := "network_error".
Definition BAD_ARGUMENTS : string := "bad_arguments".
Definition UNKOWN : string := "unknown".

(** ** [MeasurementDay] *)

Record MeasurementDay := {
  measurement_count : Z;
  anomaly_count : Z;
  failure_count : Z;
  confirmed_count : Z;
  start_day : datetime;
  input : option string;
  anomaly_ratio : option Q;
  failure_ratio : option Q;
  confirmed_ratio : option Q;
  weird_behavior_ratio : option Q
}.

Definition ratio_of (num den : Z) : option Q :=
  if negb (den =? 0) then Some (inject_Z num / inject_Z den)%Q else None.

(** [MeasurementDay.__init__]: the four assertions, then the ratios. *)
Definition MeasurementDay_init (mc ac fc : Z) (sd : datetime)
    (inpt : option string) (cc : Z) : outcome MeasurementDay :=
  if (0 <=? mc) && (0 <=? ac) && (0 <=? fc) && (0 <=? cc) then
    Ret {| measurement_count := mc; anomaly_count := ac;
           failure_count := fc; confirmed_count := cc;
           start_day := sd; input := inpt;
           anomaly_ratio := ratio_of ac mc;
           failure_ratio := ratio_of fc mc;
           confirmed_ratio := ratio_of cc mc;
           weird_behavior_ratio := ratio_of (cc + ac + fc) mc |}
  else Raise.

(** A day that [MeasurementDay.__init__] can return. *)
Definition valid_day (d : MeasurementDay) : Prop :=
  0 <= measurement_count d /\ 0 <= anomaly_count d /\
  0 <= failure_count d /\ 0 <= confirmed_count d.

(** ** [MeasurementSet] *)

Record MeasurementSet := {
  days : list MeasurementDay;
  total_measurements : Z;
  total_anomalies : Z;
  total_failures : Z;
  total_confirmed : Z;
  total_weird_behavior : Z
}.

(** [list.sort(key=lambda x: x.start_day)]: a stable sort, here a stable
    insertion sort (every stable sort yields the same list). *)
Fixpoint insert_by_day (x : MeasurementDay) (l : list MeasurementDay)
    : list MeasurementDay :=
  match l with
  | [] => [x]
  | y :: l' =>
      if dt_leb (start_day y) (start_day x) && negb (dt_leb (start_day x) (start_day y))
      then y :: insert_by_day x l'
      else x :: y :: l'
  end.

Fixpoint sort_by_day (l : list MeasurementDay) : list MeasurementDay :=
  match l with
  | [] => []
  | x :: l' => insert_by_day x (sort_by_day l')
  end.

Definition sum_of (f : MeasurementDay -> Z) (l : list MeasurementDay) : Z :=
  fold_right (fun x acc => f x + acc) 0 l.

(** [MeasurementSet.__init__] (the [isinstance] assertion holds by typing). *)
Definition MeasurementSet_init (ds : list MeasurementDay) : MeasurementSet :=
  let ds' := sort_by_day ds in
  let tm := sum_of measurement_count ds' in
  let ta := sum_of anomaly_count ds' in
  let tf := sum_of failure_count ds' in
  let tc := sum_of confirmed_count ds' in
  {| days := ds'; total_measurements := tm; total_anomalies := ta;
     total_failures := tf; total_confirmed := tc;
     total_weird_behavior := tc + ta + tf |}.

(** [MeasurementSet.add_day]. *)
Definition add_day (s : MeasurementSet) (d : MeasurementDay) : MeasurementSet :=
  {| days := sort_by_day (days s ++ [d]);
     total_measurements := total_measurements s + measurement_count d;
     total_anomalies := total_anomalies s + anomaly_count d;
     total_confirmed := total_confirmed s + confirmed_count d;
     total_failures := total_failures s + failure_count d;
     total_weird_behavior := total_weird_behavior s |}.

Definition add_days (s : MeasurementSet) (ds : list MeasurementDay) : MeasurementSet :=
  fold_left add_day ds s.

(** [x / total_measurements if total_measurements != 0 else -1]. *)
Definition avg_of (num den : Z) : Q :=
  if negb (den =? 0) then (inject_Z num / inject_Z den)%Q else (-1)%Q.

Definition get_avg_anomalies (s : MeasurementSet) : Q :=
  avg_of (total_anomalies s) (total_measurements s).
Definition get_avg_failures (s : MeasurementSet) : Q :=
  avg_of (total_failures s) (total_measurements s).
Definition get_avg_confirmed (s : MeasurementSet) : Q :=
  avg_of (total_confirmed s) (total_measurements s).
Definition get_avg_weirds (s : MeasurementSet) : Q :=
  avg_of (total_weird_behavior s) (total_measurements s).

(** Sorted ascending by [start_day]. *)
Fixpoint sorted_by_day (l : list MeasurementDay) : bool :=
  match l with
  | x :: (y :: _) as l' => dt_leb (start_day x) (start_day y) && sorted_by_day l'
  | _ => true
  end.

(** ** Watcher entries and the per-input body of [AOCW.run] *)

(** One value of [PermaConfig.urls]. *)
Record entry := {
  previous_rate : Q;
  current_rate : Q;
  change : option Q;
  last_check : option string;
  last_update : option string
}.

(** The entry [PermaConfig.add_entry] creates. *)
Definition new_entry : entry :=
  {| previous_rate := (-1)%Q; current_rate := (-1)%Q; change := None;
     last_check := None; last_update := None |}.

(** [PermaConfig.add_entry]: adds [url] unless it is already there. *)
Definition add_entry (url : string) (urls : gmap string entry) : gmap string entry :=
  match urls !! url with
  | None => <[url := new_entry]> urls
  | Some _ => urls
  end.

(** The entry [urls[line]] refers to once [add_entry] has run. *)
Definition current_entry (url : string) (urls : gmap string entry) : entry :=
  default new_entry (urls !! url).

Definition set_last_check (now : string) (e : entry) : entry :=
  {| previous_rate := previous_rate e; current_rate := current_rate e;
     change := change e; last_check := Some now; last_update := last_update e |}.

(** What the run writes to the log file and sends through the notifier. *)
Inductive event :=
| LogError (now url err : string)          (* [ERROR] ... Could not retrieve data *)
| Notify (url : string) (chg : Q) (now : string)  (* self.alert(...) *)
| LogAlert (now : string) (chg : Q) (url : string). (* [ALERT] ... Change of ... *)

Record run_state := {
  urls : gmap string entry;
  events : list event
}.

(** Lines 614-617: the change, zero on the first observation. *)
Definition compute_change (last ratio : Q) : Q :=
  if Qeq_bool last (-1) then 0%Q else (ratio - last)%Q.

(** The body of the [for line in list_file.readlines()] loop of [AOCW.run]
    after the line has been trimmed: [fetched] is the value of
    [get_measurements_list_api(since, until, line)], [now] the formatted
    [datetime.now()], [crit] the [critical_anomaly_rate]. *)
Definition run_input (crit : Q) (line now : string)
    (fetched : outcome (list MeasurementDay)) (st : run_state) : outcome run_state :=
  match fetched with
  | Raise => Raise
  | ErrStr err =>
      Ret {| urls := urls st; events := events st ++ [LogError now line err] |}
  | Ret ds =>
      let urls1 := add_entry line (urls st) in
      let dayset := MeasurementSet_init ds in
      let ratio := get_avg_anomalies dayset in
      match urls1 !! line with
      | None => Raise
      | Some e =>
          if Qeq_bool ratio (-1) then
            Ret {| urls := <[line := set_last_check now e]> urls1;
                   events := events st |}
          else
            let last := current_rate e in
            let chg := compute_change last ratio in
            let e' := {| previous_rate := current_rate e; current_rate := ratio;
                         change := Some chg; last_check := Some now;
                         last_update := Some now |} in
            Ret {| urls := <[line := e']> urls1;
                   events := if Qltb crit chg
                             then events st ++ [Notify line chg now; LogAlert now chg line]
                             else events st |}
      end
  end.

(** ** The OONI API fetch functions *)

(** A request parameter value: a plain string, or a date printed with
    [strftime("%Y-%m-%d")]. *)
Inductive pval := PStr (s : string) | PDate (d : Z).

Definition params := list (string * pval).

(** [if test_name: params['test_name'] = test_name]. *)
Definition test_name_param (test_name : option string) : params :=
  match test_name with
  | Some t => if String.eqb t "" then [] else [("test_name", PStr t)]
  | None => []
  end.

(** One row of the [result] list of [/api/v1/aggregation]. *)
Record agg_row := {
  r_measurement_count : Z;
  r_anomaly_count : Z;
  r_failure_count : Z;
  r_confirmed_count : Z;
  r_measurement_start_day : Z  (* [strptime(.., "%Y-%m-%d")] of the row *)
}.

(** A response of [/api/v1/aggregation]: status code, truthiness of
    [data.get('error')], and [data.get('result')] ([None] when missing). *)
Record agg_response := {
  agg_status : Z;
  agg_error : bool;
  agg_result : option (list agg_row)
}.

(** [requests.get(url, params=params)]: [None] when it raises. *)
Definition agg_server := params -> option agg_response.

(** A list comprehension over calls that may raise. *)
Fixpoint map_outcome {A B} (f : A -> outcome B) (l : list A) : outcome (list B) :=
  match l with
  | [] => Ret []
  | x :: l' =>
      match f x with
      | Ret y => match map_outcome f l' with
                 | Ret ys => Ret (y :: ys)
                 | ErrStr e => ErrStr e
                 | Raise => Raise
                 end
      | ErrStr e => ErrStr e
      | Raise => Raise
      end
  end.

(** The query of [get_measurements]; [domain] is not part of it
    ([if domain: pass]). *)
Definition agg_params (since until : datetime) (probe_cc : string)
    (test_name : option string) : params :=
  [("since", PDate (dt_day since)); ("until", PDate (dt_day until));
   ("probe_cc", PStr probe_cc); ("axis_x", PStr "measurement_start_day")]
  ++ test_name_param test_name.

(** [get_measurements]. *)
Definition get_measurements (server : agg_server) (since until : datetime)
    (domain : option string) (probe_cc : string) (test_name : option string)
    : outcome (list MeasurementDay) :=
  if negb (dt_leb since until) then Raise else
  match server (agg_params since until probe_cc test_name) with
  | None => Raise
  | Some req =>
      if negb (agg_status req =? 200) then ErrStr NETWORK_ERROR
      else if agg_error req then ErrStr BAD_ARGUMENTS
      else match agg_result req with
           | None | Some [] => ErrStr UNKOWN
           | Some result =>
               map_outcome (fun r =>
                 MeasurementDay_init (r_measurement_count r) (r_anomaly_count r)
                   (r_failure_count r) (midnight (r_measurement_start_day r))
                   domain (r_confirmed_count r)) result
           end
  end.

(** One measurement of [/api/v1/measurements]: the day parsed from
    [measurement_start_time[:10]] and the three flags. *)
Record msmt := {
  m_day : Z;
  m_anomaly : bool;
  m_failure : bool;
  m_confirmed : bool
}.

(** A page of [/api/v1/measurements]: status code, truthiness of
    [data.get('error')], [data.get('metadata')] with its [next_url], and
    [data.get('results')]. *)
Record page := {
  pg_status : Z;
  pg_error : bool;
  pg_metadata : option (option string);
  pg_results : option (list msmt)
}.

(** The URL requested: the first one built from the parameters, or a
    [next_url] given by the previous page. *)
Inductive url := FirstUrl (p : params) | NextUrl (u : string).

(** [requests.get(next_url)]: [None] when it raises. *)
Definition list_server := url -> option page.

(** The [while next_url != None] loop, with [fuel] bounding the number of
    requests ([None] when it runs out: the loop has not ended). *)
Fixpoint follow_pages (fuel : nat) (server : list_server) (next : url)
    (results : list msmt) : option (outcome (list msmt)) :=
  match fuel with
  | O => None
  | S fuel' =>
      match server next with
      | None => Some (ErrStr NETWORK_ERROR)
      | Some req =>
          if negb (pg_status req =? 200) then Some (ErrStr NETWORK_ERROR)
          else if pg_error req then Some (ErrStr BAD_ARGUMENTS)
          else match pg_metadata req with
               | None => Some (ErrStr UNKOWN)
               | Some next_url =>
                   (* [results += None] raises a TypeError *)
                   match pg_results req with
                   | None => Some Raise
                   | Some rs =>
                       match next_url with
                       | None => Some (Ret (results ++ rs))
                       | Some u => follow_pages fuel' server (NextUrl u) (results ++ rs)
                       end
                   end
               end
      end
  end.

(** The per-day counters of the [days] dict. *)
Record counts := {
  c_anomaly : Z;
  c_measurement : Z;
  c_failure : Z;
  c_confirmed : Z
}.

Definition zero_counts : counts :=
  {| c_anomaly := 0; c_measurement := 0; c_failure := 0; c_confirmed := 0 |}.

(** The [while curr_day <= last_day] loop: [n] days from [d]. *)
Fixpoint day_range (d : Z) (n : nat) : list Z :=
  match n with
  | O => []
  | S n' => d :: day_range (d + 1) n'
  end.

(** The number of days of [[since, until]] (days are compared at midnight). *)
Definition n_days (since until : datetime) : nat :=
  Z.to_nat (dt_day until - dt_day since + 1).

Definition init_days (since until : datetime) : list (Z * counts) :=
  map (fun d => (d, zero_counts)) (day_range (dt_day since) (n_days since until)).

Definition add_msmt (m : msmt) (c : counts) : counts :=
  {| c_anomaly := c_anomaly c + Z.b2z (m_anomaly m);
     c_measurement := c_measurement c + 1;
     c_failure := c_failure c + Z.b2z (m_failure m);
     c_confirmed := c_confirmed c + Z.b2z (m_confirmed m) |}.

(** [days[date][..] += ..]; [None] is the [KeyError] of a missing day. *)
Fixpoint bump_day (m : msmt) (ds : list (Z * counts)) : option (list (Z * counts)) :=
  match ds with
  | [] => None
  | (d, c) :: ds' =>
      if d =? m_day m then Some ((d, add_msmt m c) :: ds')
      else option_map (fun r => (d, c) :: r) (bump_day m ds')
  end.

Fixpoint fold_msmts (ms : list msmt) (ds : list (Z * counts)) : option (list (Z * counts)) :=
  match ms with
  | [] => Some ds
  | m :: ms' => match bump_day m ds with
                | None => None
                | Some ds' => fold_msmts ms' ds'
                end
  end.

Definition list_params (since until : datetime) (domain : option string)
    (probe_cc : string) (test_name : option string) : params :=
  [("since", PDate (dt_day since)); ("until", PDate (dt_day until));
   ("probe_cc", PStr probe_cc); ("order_by", PStr "measurement_start_time");
   ("order", PStr "asc")]
  ++ match domain with
     | Some d => if String.eqb d "" then [] else [("input", PStr d)]
     | None => []
     end
  ++ test_name_param test_name.

(** [get_measurements_list_api]. *)
Definition get_measurements_list_api (fuel : nat) (server : list_server)
    (since until : datetime) (domain : option string) (probe_cc : string)
    (test_name : option string) : option (outcome (list MeasurementDay)) :=
  if negb (dt_leb since until) then Some Raise else
  match follow_pages fuel server (FirstUrl (list_params since until domain probe_cc test_name)) [] with
  | None => None
  | Some (ErrStr e) => Some (ErrStr e)
  | Some Raise => Some Raise
  | Some (Ret results) =>
      match fold_msmts results (init_days since until) with
      | None => Some Raise
      | Some ds =>
          Some (map_outcome (fun '(d, metrics) =>
                  MeasurementDay_init (c_measurement metrics) (c_anomaly metrics)
                    (c_failure metrics) (midnight d) domain (c_confirmed metrics)) ds)
      end
  end.

(** ** [PermaConfig] and [PermaConfig.load] *)

#[local] Set Warnings "-register-all".

(** A value produced by [json.load]. *)
Inductive json :=
| JNull
| JBool (b : bool)
| JNum (q : Q)
| JStr (s : string)
| JArr (l : list json)
| JObj (kvs : list (string * json)).

(** [data[key]]: the last binding of [key] wins, as in [json.load];
    [None] is the [KeyError] or [TypeError] it raises. *)
Definition getitem (data : json) (key : string) : option json :=
  match data with
  | JObj kvs =>
      fold_left (fun acc '(k, v) => if String.eqb k key then Some v else acc) kvs None
  | _ => None
  end.

Definition OK : string := "ok".
Definition COULD_NOT_ACCESS_CONFIG_FILE : string := "could_not_access_config_file".

(** The instance attributes of a [PermaConfig]; their values are whatever
    [json.load] gave, so they are kept as [json]. *)
Record PermaConfig := {
  state : string;
  active : json;
  list_file : json;
  log_file : json;
  n_days_before : json;
  critical_anomaly_rate : json;
  pc_urls : json;
  mail_to_notify : json;
  sender_mail : json;
  sender_mail_pswd : json
}.

(** [PermaConfig()]: the constructor with its default arguments. *)
Definition PermaConfig_default : PermaConfig :=
  {| state := OK; active := JBool true; list_file := JNull; log_file := JNull;
     n_days_before := JNum 1; critical_anomaly_rate := JNum (1 # 10);
     pc_urls := JObj []; mail_to_notify := JStr ""; sender_mail := JNull;
     sender_mail_pswd := JNull |}.

Definition set_field (key : string) (v : json) (c : PermaConfig) : PermaConfig :=
  {| state := state c;
     active := if String.eqb key "active" then v else active c;
     list_file := if String.eqb key "list_file" then v else list_file c;
     log_file := if String.eqb key "log_file" then v else log_file c;
     n_days_before := if String.eqb key "n_days_before" then v else n_days_before c;
     critical_anomaly_rate :=
       if String.eqb key "critical_anomaly_rate" then v else critical_anomaly_rate c;
     pc_urls := if String.eqb key "urls" then v else pc_urls c;
     mail_to_notify := if String.eqb key "mail_to_notify" then v else mail_to_notify c;
     sender_mail := if String.eqb key "sender_mail" then v else sender_mail c;
     sender_mail_pswd := if String.eqb key "sender_mail_pswd" then v else sender_mail_pswd c |}.

Definition set_state (s : string) (c : PermaConfig) : PermaConfig :=
  {| state := s; active := active c; list_file := list_file c; log_file := log_file c;
     n_days_before := n_days_before c; critical_anomaly_rate := critical_anomaly_rate c;
     pc_urls := pc_urls c; mail_to_notify := mail_to_notify c;
     sender_mail := sender_mail c; sender_mail_pswd := sender_mail_pswd c |}.

(** The assignments of the [try] block, in the order of the source
    ([urls] is the [pc_urls] field). *)
Definition load_keys : list string :=
  ["active"; "list_file"; "log_file"; "n_days_before"; "critical_anomaly_rate";
   "urls"; "sender_mail_pswd"; "sender_mail"; "mail_to_notify"].

(** [self.x = data['x']] one after the other; the first failing lookup
    jumps to the [except] clause, which sets the state. *)
Fixpoint assign_fields (data : json) (keys : list string) (c : PermaConfig) : PermaConfig :=
  match keys with
  | [] => c
  | k :: keys' =>
      match getitem data k with
      | None => set_state COULD_NOT_ACCESS_CONFIG_FILE c
      | Some v => assign_fields data keys' (set_field k v c)
      end
  end.

(** [PermaConfig.load]: [store] is [json.load] of the config file, [None]
    when opening or parsing it raises. *)
Definition load (store : option json) (c : PermaConfig) : PermaConfig :=
  match store with
  | None => set_state COULD_NOT_ACCESS_CONFIG_FILE c
  | Some data => assign_fields data load_keys c
  end.

(** ** [PermaConfig.to_json] and [PermaConfig.save] *)

(** The dict [to_json] builds, before [json.dumps]. *)
Definition to_json (c : PermaConfig) : json :=
  JObj [("active", active c); ("list_file", list_file c); ("log_file", log_file c);
        ("n_days_before", n_days_before c);
        ("critical_anomaly_rate", critical_anomaly_rate c);
        ("urls", pc_urls c); ("mail_to_notify", mail_to_notify c);
        ("sender_mail", sender_mail c); ("sender_mail_pswd", sender_mail_pswd c)].

(** How the [try] block of [PermaConfig.save] goes: [open(path, 'w')]
    raises and the file is untouched; or it truncates the file and then
    [print] (or the close of the [with]) raises, leaving the text cut
    short, whole but for its final newline when [complete]; or it
    succeeds. *)
Inductive write_result :=
| OpenFails
| WriteFails (complete : bool)
| WriteOk.

(** [PermaConfig.save]: [old] is what [json.load] makes of the config file
    before the call ([None]: it does not parse, or is missing); the result
    is the object and what [json.load] makes of the file afterwards. A text
    cut short before the closing brace of the object is not JSON. *)
Definition save (r : write_result) (c : PermaConfig) (old : option json)
    : PermaConfig * option json :=
  match r with
  | OpenFails => (set_state COULD_NOT_ACCESS_CONFIG_FILE c, old)
  | WriteFails complete =>
      (set_state COULD_NOT_ACCESS_CONFIG_FILE c,
       if complete then Some (to_json c) else None)
  | WriteOk => (c, Some (to_json c))
  end.

(** ** The loop and the end of [AOCW.run] *)

Definition newline : string := String (Ascii.ascii_of_nat 10) EmptyString.

(** [if line[-1] == '\n': line = line[:len(line)-1]]; [line[-1]] of an
    empty line raises [IndexError]. A newline is one byte in UTF-8 and
    never part of another character, so bytes stand for code points here. *)
Definition trim_line (line : string) : outcome string :=
  match line with
  | EmptyString => Raise
  | String _ _ =>
      if String.eqb (substring (String.length line - 1) 1 line) newline
      then Ret (substring 0 (String.length line - 1) line)
      else Ret line
  end.

(** One iteration of the loop: the raw line read from the list file, the
    value [get_measurements_list_api] gave for it, and [datetime.now()]. *)
Definition step := (string * outcome (list MeasurementDay) * string)%type.

(** The [for line in list_file.readlines()] loop of [AOCW.run]. *)
Fixpoint run_loop (crit : Q) (steps : list step) (st : run_state) : outcome run_state :=
  match steps with
  | [] => Ret st
  | (raw, fetched, now) :: steps' =>
      match trim_line raw with
      | Ret line =>
          match run_input crit line now fetched st with
          | Ret st' => run_loop crit steps' st'
          | ErrStr e => ErrStr e
          | Raise => Raise
          end
      | ErrStr e => ErrStr e
      | Raise => Raise
      end
  end.

Definition COULD_NOT_ACCESS_LIST_FILE : string := "could_not_access_list_file".

(** The end of [AOCW.run]: an exception inside the [with open(list_file)]
    block sets [COULD_NOT_ACCESS_LIST_FILE] and returns before
    [permaConfig.save()]; otherwise the config is saved, and a failed save
    only sets [permaConfig.state], which [run] does not read. The result is
    the [AOCW] state and the entries written to the config file. *)
Definition run_finish (write_ok : bool) (o : outcome run_state)
    : string * option (gmap string entry) :=
  match o with
  | Ret st => (OK, if write_ok then Some (urls st) else None)
  | _ => (COULD_NOT_ACCESS_LIST_FILE, None)
  end.

(** ** [AOC_CLI.Config] and [days_from_config] *)

Definition DATE_FORMAT_ERROR : string := "invalid_date_format".
Definition NOT_ENOUGH_ARGS_ERROR : string := "not_enough_args".
Definition FILE_ERROR : string := "file_error".
Definition INCONSISTENT_DATES : string := "inconsistent_dates".

(** The attributes of [Config]; [cfg_inputs] is [None] where the source
    never sets [self.inputs]. *)
Record cli_config := {
  cfg_since : option datetime;
  cfg_until : option datetime;
  cfg_file : option string;
  cfg_inputs : option (list string);
  cfg_error : string
}.

Definition cfg_fail (err : string) : cli_config :=
  {| cfg_since := None; cfg_until := None; cfg_file := None; cfg_inputs := None;
     cfg_error := err |}.

Definition cfg_ok (since until : datetime) (file : option string) (ins : list string)
    : cli_config :=
  {| cfg_since := Some since; cfg_until := Some until; cfg_file := file;
     cfg_inputs := Some ins; cfg_error := OK |}.

Section CliConfig.

(** [datetime.strptime(s, "%Y-%m-%d")], [None] for its [ValueError]. *)
Variable parse_date : string -> option datetime.
(** [open(path).readlines()], [None] when it raises. *)
Variable read_lines : string -> option (list string).

(** [Config.__init__]. *)
Definition Config_init (args : list string) : outcome cli_config :=
  if (length args <? 3)%nat then Ret (cfg_fail NOT_ENOUGH_ARGS_ERROR) else
  match parse_date (nth 1 args ""%string) with
  | None => Ret (cfg_fail DATE_FORMAT_ERROR)
  | Some since =>
      match parse_date (nth 2 args ""%string) with
      | None => Ret (cfg_fail DATE_FORMAT_ERROR)
      | Some until =>
          if negb (dt_leb since until) then Ret (cfg_fail DATE_FORMAT_ERROR) else
          if (4 <=? length args)%nat then
            match nth 3 args ""%string with
            | EmptyString => Raise  (* [args[3][0]] raises [IndexError] *)
            | String c _ as a3 =>
                if Ascii.eqb c (Ascii.ascii_of_nat 45) (* "-" *) then Ret (cfg_ok since until None [])
                else match read_lines a3 with
                     | None => Ret (cfg_fail FILE_ERROR)
                     | Some lines =>
                         match map_outcome trim_line lines with
                         | Ret ins => Ret (cfg_ok since until (Some a3) ins)
                         | _ => Ret (cfg_fail FILE_ERROR)
                         end
                     end
            end
          else Ret (cfg_ok since until None [])
      end
  end.

End CliConfig.

(** The [for dom in config.inputs] loop of [days_from_config]
    ([None]: a fetch that does not end). *)
Fixpoint rows_for_inputs (fuel : nat) (server : list_server) (since until : datetime)
    (ins : list string) (rows : list MeasurementSet) : option (outcome (list MeasurementSet)) :=
  match ins with
  | [] => Some (Ret rows)
  | dom :: ins' =>
      match get_measurements_list_api fuel server since until (Some dom) "VE" None with
      | None => None
      | Some Raise => Some Raise
      | Some (ErrStr _) => rows_for_inputs fuel server since until ins' rows
      | Some (Ret ds) =>
          rows_for_inputs fuel server since until ins' (rows ++ [MeasurementSet_init ds])
      end
  end.

(** [days_from_config]: [Ret None] is its [return None]. *)
Definition days_from_config (fuel : nat) (aserver : agg_server) (lserver : list_server)
    (c : cli_config) : option (outcome (option (list MeasurementSet))) :=
  if negb (String.eqb (cfg_error c) OK) then Some (Ret None) else
  match cfg_since c, cfg_until c, cfg_inputs c with
  | Some since, Some until, Some ins =>
      match ins with
      | [] =>
          match get_measurements aserver since until None "VE" None with
          | Ret row => Some (Ret (Some [MeasurementSet_init row]))
          | ErrStr _ => Some (Ret (Some []))
          | Raise => Some Raise
          end
      | _ =>
          match rows_for_inputs fuel lserver since until ins [] with
          | None => None
          | Some (Ret rows) => Some (Ret (Some rows))
          | Some (ErrStr e) => Some (ErrStr e)
          | Some Raise => Some Raise
          end
      end
  | _, _, _ => Some Raise  (* an attribute that was never set *)
  end.

(** ** The weird-rate cell of the table in [AOC.main] *)

(** [f"...{round(r,3)}..." if r else "NA"]: [NA], or the rate (before
    [round]) with whether it is printed in red ([r >= critical_weird_rate]). *)
Inductive cell := NA | Rate (q : Q) (red : bool).

Definition weird_cell (crit : Q) (r : option Q) : cell :=
  match r with
  | None => NA
  | Some q => if Qeq_bool q 0 then NA else Rate q (Qle_bool crit q)
  end.

(** ** [MeasurementSet.get_days_by_domain] *)

(** [x.domain]: [MeasurementDay.__init__] sets no attribute [domain] (the
    input is stored as [input]), so reading it raises [AttributeError]. *)
Definition day_domain (d : MeasurementDay) : outcome (option string) := Raise.

(** [[x for x in days if x.domain == domain]]. *)
Fixpoint filter_days (domain : option string) (l : list MeasurementDay)
    : outcome (list MeasurementDay) :=
  match l with
  | [] => Ret []
  | x :: l' =>
      match day_domain x with
      | Ret dx =>
          match filter_days domain l' with
          | Ret ys => Ret (if decide (dx = domain) then x :: ys else ys)
          | ErrStr e => ErrStr e
          | Raise => Raise
          end
      | ErrStr e => ErrStr e
      | Raise => Raise
      end
  end.

Definition get_days_by_domain (s : MeasurementSet) (domain : option string)
    : outcome (list MeasurementDay) :=
  filter_days domain (days s).

(** * Properties *)

(** ** Helper lemmas on [MeasurementSet] *)

Lemma insert_by_day_Forall (P : MeasurementDay -> Prop) x l :
  P x -> Forall P l -> Forall P (insert_by_day x l).
Proof.
  intros Hx Hl. induction Hl as [|y l' Hy Hl' IH]; simpl.
  - constructor; [exact Hx | constructor].
  - destruct (_ && _); repeat constructor; auto.
Qed.

Lemma sort_by_day_Forall (P : MeasurementDay -> Prop) l :
  Forall P l -> Forall P (sort_by_day l).
Proof.
  induction 1; simpl; [constructor|].
  apply insert_by_day_Forall; auto.
Qed.

Lemma sum_of_nonneg (f : MeasurementDay -> Z) l :
  Forall (fun d => 0 <= f d) l -> 0 <= sum_of f l.
Proof.
  unfold sum_of. induction 1; simpl; lia.
Qed.

(** The totals a constructed set can have are non-negative. *)
Definition totals_nonneg (s : MeasurementSet) : Prop :=
  0 <= total_measurements s /\ 0 <= total_anomalies s /\ 0 <= total_failures s /\
  0 <= total_confirmed s /\ 0 <= total_weird_behavior s.

Lemma init_totals_nonneg ds :
  Forall valid_day ds -> totals_nonneg (MeasurementSet_init ds).
Proof.
  intros Hds. apply (sort_by_day_Forall valid_day) in Hds.
  unfold totals_nonneg, MeasurementSet_init; simpl.
  assert (Hm := sum_of_nonneg measurement_count (sort_by_day ds)).
  assert (Ha := sum_of_nonneg anomaly_count (sort_by_day ds)).
  assert (Hf := sum_of_nonneg failure_count (sort_by_day ds)).
  assert (Hc := sum_of_nonneg confirmed_count (sort_by_day ds)).
  assert (Forall (fun d => 0 <= measurement_count d) (sort_by_day ds)) as F1
    by (eapply Forall_impl; [exact Hds|]; intros d Hd; apply Hd).
  assert (Forall (fun d => 0 <= anomaly_count d) (sort_by_day ds)) as F2
    by (eapply Forall_impl; [exact Hds|]; intros d Hd; apply Hd).
  assert (Forall (fun d => 0 <= failure_count d) (sort_by_day ds)) as F3
    by (eapply Forall_impl; [exact Hds|]; intros d Hd; apply Hd).
  assert (Forall (fun d => 0 <= confirmed_count d) (sort_by_day ds)) as F4
    by (eapply Forall_impl; [exact Hds|]; intros d Hd; apply Hd).
  specialize (Hm F1); specialize (Ha F2); specialize (Hf F3); specialize (Hc F4).
  lia.
Qed.

Lemma add_days_totals_nonneg s adds :
  totals_nonneg s -> Forall valid_day adds -> totals_nonneg (add_days s adds).
Proof.
  revert s. induction adds as [|d adds IH]; intros s Hs Hadds; [exact Hs|].
  inversion Hadds as [|? ? Hd Hrest]; subst.
  unfold add_days; simpl. apply IH; [|exact Hrest].
  destruct Hs as (? & ? & ? & ? & ?); destruct Hd as (? & ? & ? & ?).
  unfold totals_nonneg, add_day; simpl. lia.
Qed.

Lemma inject_Z_div_nonneg (a b : Z) :
  0 <= a -> 0 <= b -> (0 <= inject_Z a / inject_Z b)%Q.
Proof.
  intros Ha Hb. unfold Qdiv. apply Qmult_le_0_compat.
  - change 0%Q with (inject_Z 0). now rewrite <- Zle_Qle.
  - apply Qinv_le_0_compat. change 0%Q with (inject_Z 0). now rewrite <- Zle_Qle.
Qed.

(** The sentinel of [avg_of] is told apart from every ratio of
    non-negative totals. *)
Lemma avg_of_spec (num den : Z) :
  0 <= num -> 0 <= den ->
  ((avg_of num den == -1)%Q <-> den = 0) /\
  (den <> 0 -> avg_of num den = (inject_Z num / inject_Z den)%Q).
Proof.
  intros Hn Hd. unfold avg_of.
  destruct (Z.eqb_spec den 0) as [->|Hne]; simpl.
  - split; [split; reflexivity | intros H; congruence].
  - split; [|reflexivity]. split; [|intros; contradiction].
    intros Heq. assert (H0 := inject_Z_div_nonneg num den Hn Hd).
    rewrite Heq in H0. exfalso. apply H0. reflexivity.
Qed.

(** ** Range aggregates *)

(** A day of one measurement, flagged anomalous. *)
Definition one_anomaly_day : MeasurementDay :=
  {| measurement_count := 1; anomaly_count := 1; failure_count := 0;
     confirmed_count := 0; start_day := midnight 0; input := None;
     anomaly_ratio := Some (1 # 1); failure_ratio := Some (0 # 1);
     confirmed_ratio := Some (0 # 1); weird_behavior_ratio := Some (1 # 1) |}.

(** C1 (code_bug): [add_day] increments the four totals but not
    [total_weird_behavior]: after adding one anomalous day to an empty set,
    [total_anomalies] is 1 while [total_weird_behavior] stays 0, so
    [totalWeird = totalConfirmed + totalAnomalies + totalFailures] fails. *)
Theorem add_day_weird_total_stale :
  MeasurementDay_init 1 1 0 (midnight 0) None 0 = Ret one_anomaly_day /\
  let s := add_day (MeasurementSet_init []) one_anomaly_day in
  total_anomalies s = 1 /\ total_measurements s = 1 /\
  total_weird_behavior s = 0 /\
  total_weird_behavior s <> total_confirmed s + total_anomalies s + total_failures s.
Proof.
  split; [reflexivity|]. simpl. repeat split; discriminate.
Qed.

(** C9: for every set built by [MeasurementSet.__init__] from valid days
    and grown by [add_day], each average accessor returns the sentinel -1
    exactly when [total_measurements] is 0, and otherwise the quotient of
    its total by [total_measurements]. *)
Theorem avg_rates_sentinel_iff (ds adds : list MeasurementDay) :
  Forall valid_day ds -> Forall valid_day adds ->
  let s := add_days (MeasurementSet_init ds) adds in
  ((get_avg_anomalies s == -1)%Q <-> total_measurements s = 0) /\
  ((get_avg_failures s == -1)%Q <-> total_measurements s = 0) /\
  ((get_avg_confirmed s == -1)%Q <-> total_measurements s = 0) /\
  ((get_avg_weirds s == -1)%Q <-> total_measurements s = 0) /\
  (total_measurements s <> 0 ->
     get_avg_anomalies s = (inject_Z (total_anomalies s) / inject_Z (total_measurements s))%Q /\
     get_avg_failures s = (inject_Z (total_failures s) / inject_Z (total_measurements s))%Q /\
     get_avg_confirmed s = (inject_Z (total_confirmed s) / inject_Z (total_measurements s))%Q /\
     get_avg_weirds s = (inject_Z (total_weird_behavior s) / inject_Z (total_measurements s))%Q).
Proof.
  intros Hds Hadds s.
  assert (Hs : totals_nonneg s)
    by (apply add_days_totals_nonneg; [apply init_totals_nonneg|]; assumption).
  destruct Hs as (Hm & Ha & Hf & Hc & Hw).
  destruct (avg_of_spec _ _ Ha Hm) as [A1 A2].
  destruct (avg_of_spec _ _ Hf Hm) as [F1 F2].
  destruct (avg_of_spec _ _ Hc Hm) as [C1 C2].
  destruct (avg_of_spec _ _ Hw Hm) as [W1 W2].
  unfold get_avg_anomalies, get_avg_failures, get_avg_confirmed, get_avg_weirds.
  repeat split; try tauto; intros; auto.
Qed.

Lemma avg_rates_sentinel_iff_witness :
  Forall valid_day [one_anomaly_day] /\ Forall valid_day [one_anomaly_day] /\
  let s := add_days (MeasurementSet_init [one_anomaly_day]) [one_anomaly_day] in
  ((get_avg_anomalies s == -1)%Q <-> total_measurements s = 0).
Proof.
  assert (Hv : Forall valid_day [one_anomaly_day])
    by (repeat constructor; simpl; lia).
  split; [exact Hv|]. split; [exact Hv|].
  apply (avg_rates_sentinel_iff [one_anomaly_day] [one_anomaly_day] Hv Hv).
Defined.

(** What [add_day] does keep: the four counted totals stay the sums over
    [days], and [days] stays sorted. *)
Definition counted_totals_ok (s : MeasurementSet) : Prop :=
  total_measurements s = sum_of measurement_count (days s) /\
  total_anomalies s = sum_of anomaly_count (days s) /\
  total_failures s = sum_of failure_count (days s) /\
  total_confirmed s = sum_of confirmed_count (days s) /\
  sorted_by_day (days s) = true.

Lemma dt_leb_total a b : dt_leb a b = true \/ dt_leb b a = true.
Proof.
  unfold dt_leb. destruct a as [da sa], b as [db sb]; simpl.
  destruct (Z.ltb_spec da db), (Z.ltb_spec db da), (Z.eqb_spec da db),
    (Z.eqb_spec db da), (Z.leb_spec sa sb), (Z.leb_spec sb sa);
    simpl; auto; lia.
Qed.

Lemma sum_of_insert f x l :
  sum_of f (insert_by_day x l) = f x + sum_of f l.
Proof.
  induction l as [|y l IH]; simpl; [reflexivity|].
  destruct (_ && _); simpl; [rewrite IH|]; lia.
Qed.

Lemma sum_of_sort f l : sum_of f (sort_by_day l) = sum_of f l.
Proof.
  induction l as [|x l IH]; simpl; [reflexivity|].
  rewrite sum_of_insert, IH. reflexivity.
Qed.

Lemma sum_of_app f l1 l2 : sum_of f (l1 ++ l2) = sum_of f l1 + sum_of f l2.
Proof.
  induction l1 as [|x l1 IH]; simpl; [reflexivity|]. rewrite IH. lia.
Qed.

(** The head of [insert_by_day x l] is [x] or the head of [l]. *)
Lemma insert_by_day_sorted x l :
  sorted_by_day l = true -> sorted_by_day (insert_by_day x l) = true.
Proof.
  induction l as [|y l IH]; intros Hs; simpl; [reflexivity|].
  destruct (dt_leb (start_day y) (start_day x)) eqn:Eyx,
    (dt_leb (start_day x) (start_day y)) eqn:Exy; cbn [andb negb].
  - change (dt_leb (start_day x) (start_day y) && sorted_by_day (y :: l) = true).
    rewrite Exy, Hs. reflexivity.
  - assert (Hl : sorted_by_day l = true)
      by (destruct l; [reflexivity|]; simpl in Hs; apply andb_prop in Hs; tauto).
    specialize (IH Hl).
    destruct l as [|z l]; simpl; [rewrite Eyx; reflexivity|].
    simpl in Hs. apply andb_prop in Hs as [Hyz _].
    simpl in IH |- *.
    destruct (dt_leb (start_day z) (start_day x) && negb (dt_leb (start_day x) (start_day z)));
      simpl in IH |- *; [rewrite Hyz|rewrite Eyx]; exact IH.
  - change (dt_leb (start_day x) (start_day y) && sorted_by_day (y :: l) = true).
    rewrite Exy, Hs. reflexivity.
  - destruct (dt_leb_total (start_day x) (start_day y)); congruence.
Qed.

Lemma sort_by_day_sorted l : sorted_by_day (sort_by_day l) = true.
Proof.
  induction l as [|x l IH]; simpl; [reflexivity|]. now apply insert_by_day_sorted.
Qed.

Lemma init_counted_totals_ok ds : counted_totals_ok (MeasurementSet_init ds).
Proof.
  unfold counted_totals_ok, MeasurementSet_init; simpl.
  repeat split; apply sort_by_day_sorted.
Qed.

Lemma add_days_counted_totals_ok ds adds :
  counted_totals_ok (add_days (MeasurementSet_init ds) adds).
Proof.
  generalize (init_counted_totals_ok ds). generalize (MeasurementSet_init ds).
  induction adds as [|d adds IH]; intros s Hs; [exact Hs|].
  unfold add_days; simpl. apply IH.
  destruct Hs as (Hm & Ha & Hf & Hc & _).
  unfold counted_totals_ok, add_day; simpl.
  rewrite !sum_of_sort, !sum_of_app; simpl.
  repeat split; try lia. apply sort_by_day_sorted.
Qed.

(** ** The fetch functions *)

Definition outcome_map {A B} (f : A -> B) (o : outcome A) : outcome B :=
  match o with
  | Ret a => Ret (f a)
  | ErrStr e => ErrStr e
  | Raise => Raise
  end.

(** The same day with another [input] label. *)
Definition set_input (inpt : option string) (d : MeasurementDay) : MeasurementDay :=
  {| measurement_count := measurement_count d; anomaly_count := anomaly_count d;
     failure_count := failure_count d; confirmed_count := confirmed_count d;
     start_day := start_day d; input := inpt;
     anomaly_ratio := anomaly_ratio d; failure_ratio := failure_ratio d;
     confirmed_ratio := confirmed_ratio d;
     weird_behavior_ratio := weird_behavior_ratio d |}.

Lemma MeasurementDay_init_relabel mc ac fc sd i1 i2 cc :
  MeasurementDay_init mc ac fc sd i2 cc =
  outcome_map (set_input i2) (MeasurementDay_init mc ac fc sd i1 cc).
Proof.
  unfold MeasurementDay_init. destruct (_ && _); reflexivity.
Qed.

Lemma map_outcome_relabel {A} (f : A -> option string -> outcome MeasurementDay) i1 i2 l :
  (forall a, f a i2 = outcome_map (set_input i2) (f a i1)) ->
  map_outcome (fun a => f a i2) l =
  outcome_map (map (set_input i2)) (map_outcome (fun a => f a i1) l).
Proof.
  intros Hf. induction l as [|a l IH]; simpl; [reflexivity|].
  rewrite Hf, IH. destruct (f a i1); simpl; [|reflexivity|reflexivity].
  destruct (map_outcome (fun a => f a i1) l); reflexivity.
Qed.

(** C10: [get_measurements] leaves [domain] out of the query, so for the
    same server, the result for [d2] is the result for [d1] with only the
    [input] label of each day replaced by [d2]: counts, days and ratios are
    the same. *)
Theorem get_measurements_domain_ignored (server : agg_server) (since until : datetime)
    (d1 d2 : option string) (probe_cc : string) (test_name : option string) :
  get_measurements server since until d2 probe_cc test_name =
  outcome_map (map (set_input d2)) (get_measurements server since until d1 probe_cc test_name).
Proof.
  unfold get_measurements.
  destruct (negb (dt_leb since until)); [reflexivity|].
  destruct (server _) as [req|]; [|reflexivity].
  destruct (negb _); [reflexivity|]. destruct (agg_error req); [reflexivity|].
  destruct (agg_result req) as [[|r rs]|]; try reflexivity.
  apply (map_outcome_relabel (fun r i => MeasurementDay_init (r_measurement_count r)
           (r_anomaly_count r) (r_failure_count r) (midnight (r_measurement_start_day r))
           i (r_confirmed_count r))).
  intros a. apply MeasurementDay_init_relabel.
Qed.

Definition day0 : datetime := mk_dt 0 0.
Definition day1 : datetime := mk_dt 1 0.

(** Servers that answer every request with an empty success. *)
Definition empty_agg_server : agg_server :=
  fun _ => Some {| agg_status := 200; agg_error := false; agg_result := Some [] |}.
Definition empty_list_server : list_server :=
  fun _ => Some {| pg_status := 200; pg_error := false; pg_metadata := Some None;
                   pg_results := Some [] |}.

(** C7 (counterexample): with [since] after [until], both fetch functions
    raise (the [assert since <= until]) instead of returning an error value
    as they do for the network, argument and unknown errors. *)
Lemma fetch_invalid_range_raises :
  get_measurements empty_agg_server day1 day0 None "VE" None = Raise /\
  get_measurements_list_api 1 empty_list_server day1 day0 None "VE" None = Some Raise /\
  (forall e, get_measurements empty_agg_server day1 day0 None "VE" None <> ErrStr e) /\
  (forall e, get_measurements_list_api 1 empty_list_server day1 day0 None "VE" None
             <> Some (ErrStr e)).
Proof.
  repeat split; intros; discriminate.
Qed.

(** C7 (amended): when [since] is after [until], both fetch functions
    raise, whatever the server would answer (no request is made). *)
Theorem fetch_invalid_range_raise_before_io (since until : datetime)
    (domain : option string) (probe_cc : string) (test_name : option string) :
  dt_leb since until = false ->
  (forall server : agg_server,
     get_measurements server since until domain probe_cc test_name = Raise) /\
  (forall (fuel : nat) (server : list_server),
     get_measurements_list_api fuel server since until domain probe_cc test_name = Some Raise).
Proof.
  intros H. unfold get_measurements, get_measurements_list_api. rewrite H. simpl.
  split; reflexivity.
Qed.

Lemma fetch_invalid_range_raise_before_io_witness :
  dt_leb day1 day0 = false /\
  get_measurements empty_agg_server day1 day0 None "VE" None = Raise.
Proof.
  split; [reflexivity|].
  apply (fetch_invalid_range_raise_before_io day1 day0 None "VE" None).
  reflexivity.
Defined.

(** ** [PermaConfig.load] *)

(** The fields of [keys] set, in order, from [data]. *)
Definition apply_keys (data : json) (keys : list string) (c : PermaConfig) : PermaConfig :=
  fold_left (fun c k => set_field k (default JNull (getitem data k)) c) keys c.

Lemma assign_fields_cases data keys c :
  (Forall (fun k => getitem data k <> None) keys /\
   assign_fields data keys c = apply_keys data keys c) \/
  (exists n k, nth_error keys n = Some k /\ getitem data k = None /\
     Forall (fun k => getitem data k <> None) (firstn n keys) /\
     assign_fields data keys c =
       set_state COULD_NOT_ACCESS_CONFIG_FILE (apply_keys data (firstn n keys) c)).
Proof.
  revert c. induction keys as [|k keys IH]; intros c; cbn [assign_fields].
  - left. split; [constructor|reflexivity].
  - destruct (getitem data k) as [v|] eqn:Ek.
    + destruct (IH (set_field k v c)) as [[Hall Heq]|(n & k' & Hn & Hk' & Hpre & Heq)].
      * left. split; [constructor; [congruence|exact Hall]|].
        rewrite Heq. unfold apply_keys. cbn [fold_left]. rewrite Ek. reflexivity.
      * right. exists (S n), k'. simpl. repeat split; try assumption.
        -- constructor; [congruence|exact Hpre].
        -- rewrite Heq. unfold apply_keys. cbn [fold_left]. rewrite Ek. reflexivity.
    + right. exists 0%nat, k. simpl. repeat split; try assumption; constructor.
Qed.

(** A store that parses but lacks every key after ["active"]. *)
Definition store_only_active : json := JObj [("active", JBool false)].

(** C8 (counterexample): loading a store that has ["active"] but not
    ["list_file"] sets the error state, yet [active] has already been
    overwritten: it no longer holds its default value. *)
Lemma load_partial_update :
  state (load (Some store_only_active) PermaConfig_default) = COULD_NOT_ACCESS_CONFIG_FILE /\
  active PermaConfig_default = JBool true /\
  active (load (Some store_only_active) PermaConfig_default) = JBool false.
Proof.
  repeat split.
Qed.

(** C8 (amended): [load] always returns (the failure is the state
    [COULD_NOT_ACCESS_CONFIG_FILE], not an exception). An unreadable or
    unparsable store changes no field. A parsed store either has every key,
    and all fields are taken from it, or its first missing key (in the
    order [active], [list_file], [log_file], [n_days_before],
    [critical_anomaly_rate], [urls], [sender_mail_pswd], [sender_mail],
    [mail_to_notify]) sets the error state, the fields of the keys before
    it taken from the store and the others unchanged. *)
Theorem load_failure_status (c : PermaConfig) :
  load None c = set_state COULD_NOT_ACCESS_CONFIG_FILE c /\
  forall data : json,
    (Forall (fun k => getitem data k <> None) load_keys /\
     load (Some data) c = apply_keys data load_keys c) \/
    (exists n k, nth_error load_keys n = Some k /\ getitem data k = None /\
       Forall (fun k => getitem data k <> None) (firstn n load_keys) /\
       load (Some data) c =
         set_state COULD_NOT_ACCESS_CONFIG_FILE (apply_keys data (firstn n load_keys) c)).
Proof.
  split; [reflexivity|]. intros data. apply assign_fields_cases.
Qed.

(** ** The per-input body of [AOCW.run] *)

Lemma add_entry_lookup_eq line (m : gmap string entry) :
  add_entry line m !! line = Some (current_entry line m).
Proof.
  unfold add_entry, current_entry. destruct (m !! line) eqn:E; simpl.
  - exact E.
  - apply lookup_insert_eq.
Qed.

Lemma insert_add_entry line (x : entry) (m : gmap string entry) :
  <[line := x]> (add_entry line m) = <[line := x]> m.
Proof.
  unfold add_entry. destruct (m !! line); [reflexivity|]. apply insert_insert_eq.
Qed.

(** The ratio the run computes from the fetched days. *)
Definition run_ratio (ds : list MeasurementDay) : Q :=
  get_avg_anomalies (MeasurementSet_init ds).

(** The entry written by the update branch (lines 619-623). *)
Definition updated_entry (e : entry) (ratio : Q) (now : string) : entry :=
  {| previous_rate := current_rate e; current_rate := ratio;
     change := Some (compute_change (current_rate e) ratio);
     last_check := Some now; last_update := Some now |}.

(** The two branches of the body after a successful fetch. *)
Lemma run_input_fetched crit line now ds st :
  run_input crit line now (Ret ds) st =
  let e := current_entry line (urls st) in
  let ratio := run_ratio ds in
  if Qeq_bool ratio (-1) then
    Ret {| urls := <[line := set_last_check now e]> (urls st); events := events st |}
  else
    let chg := compute_change (current_rate e) ratio in
    Ret {| urls := <[line := updated_entry e ratio now]> (urls st);
           events := if Qltb crit chg
                     then events st ++ [Notify line chg now; LogAlert now chg line]
                     else events st |}.
Proof.
  unfold run_input. cbv zeta. rewrite add_entry_lookup_eq.
  unfold run_ratio. destruct (Qeq_bool _ _); rewrite insert_add_entry; reflexivity.
Qed.

Lemma Qeq_bool_false_iff x y : Qeq_bool x y = false <-> ~ (x == y)%Q.
Proof.
  rewrite <- Qeq_bool_iff. destruct (Qeq_bool x y); split; congruence.
Qed.

Lemma Qltb_iff x y : Qltb x y = true <-> (x < y)%Q.
Proof.
  unfold Qltb. rewrite negb_true_iff.
  split; intros H.
  - apply Qnot_le_lt. intros Hle. apply Qle_bool_iff in Hle. congruence.
  - destruct (Qle_bool y x) eqn:E; [|reflexivity].
    apply Qle_bool_iff in E. exfalso. apply (Qlt_not_le x y); assumption.
Qed.

(** A sample: a day of two measurements, one anomalous. *)
Definition half_day : MeasurementDay :=
  {| measurement_count := 2; anomaly_count := 1; failure_count := 0;
     confirmed_count := 0; start_day := midnight 0; input := Some "a";
     anomaly_ratio := Some (1 # 2); failure_ratio := Some (0 # 1);
     confirmed_ratio := Some (0 # 1); weird_behavior_ratio := Some (1 # 2) |}.

Definition empty_run : run_state := {| urls := ∅; events := [] |}.

Example run_ratio_half_day : (run_ratio [half_day] == 1 # 2)%Q.
Proof. reflexivity. Qed.

(** C2: when the stored [current_rate] is the sentinel -1 and the fetched
    ratio is not -1, the update sets [previous_rate] to -1, [current_rate]
    to the ratio and [change] to 0, and with a non-negative threshold
    raises no alert. *)
Theorem first_observation_change_zero crit line now ds st :
  (current_rate (current_entry line (urls st)) == -1)%Q ->
  ~ (run_ratio ds == -1)%Q ->
  (0 <= crit)%Q ->
  exists st', run_input crit line now (Ret ds) st = Ret st' /\
    exists e', urls st' !! line = Some e' /\
      (previous_rate e' == -1)%Q /\ current_rate e' = run_ratio ds /\
      change e' = Some 0%Q /\ events st' = events st.
Proof.
  intros Hcur Hratio Hcrit. rewrite run_input_fetched. cbv zeta.
  apply Qeq_bool_false_iff in Hratio. rewrite Hratio.
  assert (Hc : compute_change (current_rate (current_entry line (urls st))) (run_ratio ds) = 0%Q).
  { unfold compute_change. apply Qeq_bool_iff in Hcur. rewrite Hcur. reflexivity. }
  rewrite Hc.
  assert (Hq : Qltb crit 0 = false).
  { destruct (Qltb crit 0) eqn:E; [|reflexivity].
    apply Qltb_iff in E. exfalso. apply (Qlt_not_le crit 0); assumption. }
  rewrite Hq.
  eexists; split; [reflexivity|]. simpl.
  eexists; split; [apply lookup_insert_eq|]. simpl.
  unfold updated_entry; simpl. rewrite Hc. repeat split; assumption.
Qed.

Lemma first_observation_change_zero_witness :
  exists st', run_input (1 # 10) "a" "2024-01-02 00:00:00" (Ret [half_day]) empty_run = Ret st' /\
    exists e', urls st' !! "a" = Some e' /\
      (previous_rate e' == -1)%Q /\ current_rate e' = run_ratio [half_day] /\
      change e' = Some 0%Q /\ events st' = events empty_run.
Proof.
  apply first_observation_change_zero.
  - reflexivity.
  - rewrite run_ratio_half_day. discriminate.
  - discriminate.
Defined.

(** C3: in the update branch (the fetched ratio is not -1), the notifier
    is called and the alert line logged exactly when the computed change is
    strictly above [critical_anomaly_rate]: a change equal to the threshold
    does not alert, and with a non-negative threshold a drop never alerts. *)
Theorem alert_iff_change_above_threshold crit line now ds st :
  ~ (run_ratio ds == -1)%Q ->
  let c := compute_change (current_rate (current_entry line (urls st))) (run_ratio ds) in
  exists st', run_input crit line now (Ret ds) st = Ret st' /\
    (exists e', urls st' !! line = Some e' /\ change e' = Some c) /\
    ((crit < c)%Q -> events st' = events st ++ [Notify line c now; LogAlert now c line]) /\
    (~ (crit < c)%Q -> events st' = events st) /\
    ((c == crit)%Q -> events st' = events st) /\
    ((0 <= crit)%Q -> (c < 0)%Q -> events st' = events st).
Proof.
  intros Hratio c. rewrite run_input_fetched. cbv zeta.
  apply Qeq_bool_false_iff in Hratio. rewrite Hratio. fold c.
  eexists; split; [reflexivity|]. simpl.
  assert (Hnot : ~ (crit < c)%Q -> Qltb crit c = false).
  { intros Hn. destruct (Qltb crit c) eqn:E; [|reflexivity].
    apply Qltb_iff in E. contradiction. }
  split; [|split; [|split; [|split]]].
  - eexists; split; [apply lookup_insert_eq|reflexivity].
  - intros Hlt. apply Qltb_iff in Hlt. rewrite Hlt. reflexivity.
  - intros Hn. rewrite (Hnot Hn). reflexivity.
  - intros Heq. rewrite Hnot; [reflexivity|].
    rewrite Heq. apply Qlt_irrefl.
  - intros Hcrit Hneg. rewrite Hnot; [reflexivity|].
    intros Hlt. apply (Qlt_irrefl c). apply (Qlt_trans _ 0); [exact Hneg|].
    apply (Qle_lt_trans _ crit); assumption.
Qed.

Lemma alert_iff_change_above_threshold_witness :
  ~ (run_ratio [half_day] == -1)%Q /\
  exists st', run_input (1 # 10) "a" "2024-01-02 00:00:00" (Ret [half_day]) empty_run = Ret st'.
Proof.
  assert (H : ~ (run_ratio [half_day] == -1)%Q)
    by (rewrite run_ratio_half_day; discriminate).
  split; [exact H|].
  destruct (alert_iff_change_above_threshold (1 # 10) "a" "2024-01-02 00:00:00"
              [half_day] empty_run H) as (st' & Hrun & _).
  exists st'. exact Hrun.
Defined.

(** C5: when the fetched ratio is the sentinel -1, the run only sets
    [last_check] of the input's entry: [previous_rate], [current_rate],
    [change] and [last_update] keep their values, no other entry changes,
    and nothing is logged or notified. *)
Theorem no_data_updates_last_check_only crit line now ds st e :
  urls st !! line = Some e ->
  (run_ratio ds == -1)%Q ->
  exists st', run_input crit line now (Ret ds) st = Ret st' /\
    urls st' = <[line := set_last_check now e]> (urls st) /\
    (exists e', urls st' !! line = Some e' /\
       previous_rate e' = previous_rate e /\ current_rate e' = current_rate e /\
       change e' = change e /\ last_update e' = last_update e /\
       last_check e' = Some now) /\
    (forall k, k <> line -> urls st' !! k = urls st !! k) /\
    events st' = events st.
Proof.
  intros He Hratio. rewrite run_input_fetched. cbv zeta.
  apply Qeq_bool_iff in Hratio. rewrite Hratio.
  unfold current_entry. rewrite He. simpl.
  eexists; split; [reflexivity|]. simpl.
  split; [reflexivity|]. split; [|split; [|reflexivity]].
  - eexists; split; [apply lookup_insert_eq|]. repeat split.
  - intros k Hk. apply lookup_insert_ne. congruence.
Qed.

(** A day without measurements. *)
Definition empty_day : MeasurementDay :=
  {| measurement_count := 0; anomaly_count := 0; failure_count := 0;
     confirmed_count := 0; start_day := midnight 0; input := Some "a";
     anomaly_ratio := None; failure_ratio := None;
     confirmed_ratio := None; weird_behavior_ratio := None |}.

Definition seen_entry : entry :=
  {| previous_rate := 1 # 4; current_rate := 1 # 2; change := Some (1 # 4);
     last_check := Some "2024-01-01 00:00:00"; last_update := Some "2024-01-01 00:00:00" |}.

Definition seen_run : run_state := {| urls := {[ "a" := seen_entry ]}; events := [] |}.

Lemma no_data_updates_last_check_only_witness :
  seen_run.(urls) !! "a" = Some seen_entry /\ (run_ratio [empty_day] == -1)%Q /\
  exists st', run_input (1 # 10) "a" "2024-01-02 00:00:00" (Ret [empty_day]) seen_run = Ret st' /\
    urls st' = <[ "a" := set_last_check "2024-01-02 00:00:00" seen_entry]> (urls seen_run).
Proof.
  assert (H1 : seen_run.(urls) !! "a" = Some seen_entry) by reflexivity.
  assert (H2 : (run_ratio [empty_day] == -1)%Q) by reflexivity.
  split; [exact H1|]. split; [exact H2|].
  destruct (no_data_updates_last_check_only (1 # 10) "a" "2024-01-02 00:00:00"
              [empty_day] seen_run seen_entry H1 H2) as (st' & Hrun & Hurls & _).
  exists st'. split; assumption.
Defined.

(** The relation the run keeps between [change] and the two rates. *)
Definition change_ok (e : entry) : Prop :=
  match change e with
  | None => True
  | Some c =>
      ((previous_rate e == -1)%Q /\ (c == 0)%Q) \/
      (~ (previous_rate e == -1)%Q /\ c = (current_rate e - previous_rate e)%Q)
  end.

Definition all_change_ok (m : gmap string entry) : Prop :=
  forall k e, m !! k = Some e -> change_ok e.

Lemma all_change_ok_insert m k e :
  all_change_ok m -> change_ok e -> all_change_ok (<[k := e]> m).
Proof.
  intros Hm He k' e'. destruct (decide (k = k')) as [->|Hne].
  - rewrite lookup_insert_eq. intros [= <-]. exact He.
  - rewrite lookup_insert_ne by exact Hne. apply Hm.
Qed.

Lemma current_entry_change_ok line m :
  all_change_ok m -> change_ok (current_entry line m).
Proof.
  intros Hm. unfold current_entry. destruct (m !! line) eqn:E; simpl.
  - exact (Hm _ _ E).
  - exact I.
Qed.

(** C6 (counterexample): the first observation of a new input with ratio
    1/2 stores [change = 0] while [current_rate - previous_rate] is
    1/2 - (-1) = 3/2. *)
Lemma first_observation_change_not_delta :
  exists st', run_input (1 # 10) "a" "2024-01-02 00:00:00" (Ret [half_day]) empty_run = Ret st' /\
    exists e', urls st' !! "a" = Some e' /\ change e' = Some 0%Q /\
      (current_rate e' - previous_rate e' == 3 # 2)%Q /\
      ~ (0 == current_rate e' - previous_rate e')%Q.
Proof.
  eexists; split; [reflexivity|].
  eexists; split; [reflexivity|].
  split; [reflexivity|]. split; [reflexivity|]. discriminate.
Qed.

(** C6 (amended): every step of the run preserves, for every entry with a
    [change], that either [previous_rate] is the sentinel -1 and [change]
    is 0 (the first observation), or [previous_rate] is not -1 and
    [change = current_rate - previous_rate]. *)
Theorem run_input_preserves_change_ok crit line now fetched st st' :
  all_change_ok (urls st) ->
  run_input crit line now fetched st = Ret st' ->
  all_change_ok (urls st').
Proof.
  intros Hok Hrun. destruct fetched as [ds|err|].
  - rewrite run_input_fetched in Hrun. cbv zeta in Hrun.
    assert (He := current_entry_change_ok line _ Hok).
    destruct (Qeq_bool _ _); injection Hrun as <-; simpl;
      apply all_change_ok_insert; try exact Hok.
    + exact He.
    + unfold change_ok, updated_entry, compute_change; simpl.
      destruct (Qeq_bool (current_rate (current_entry line (urls st))) (-1)) eqn:E.
      * left. split; [now apply Qeq_bool_iff|reflexivity].
      * right. split; [now apply Qeq_bool_false_iff|reflexivity].
  - simpl in Hrun. injection Hrun as <-. exact Hok.
  - discriminate.
Qed.

Lemma run_input_preserves_change_ok_witness :
  all_change_ok (urls empty_run) /\
  exists st', run_input (1 # 10) "a" "2024-01-02 00:00:00" (Ret [half_day]) empty_run = Ret st' /\
    all_change_ok (urls st').
Proof.
  assert (H0 : all_change_ok (urls empty_run)) by (intros k e; simpl; rewrite lookup_empty; discriminate).
  split; [exact H0|].
  eexists; split; [reflexivity|].
  eapply (run_input_preserves_change_ok (1 # 10) "a" "2024-01-02 00:00:00" (Ret [half_day]) empty_run);
    [exact H0|reflexivity].
Defined.

(** ** One bucket per calendar day in [get_measurements_list_api] *)

(** [MeasurementDay.__init__] of the [days] dict entry [(d, metrics)]. *)
Definition bucket_of (domain : option string) (p : Z * counts) : outcome MeasurementDay :=
  let '(d, metrics) := p in
  MeasurementDay_init (c_measurement metrics) (c_anomaly metrics)
    (c_failure metrics) (midnight d) domain (c_confirmed metrics).

(** The bucket of a day without measurements. *)
Definition empty_bucket (domain : option string) (d : Z) : MeasurementDay :=
  {| measurement_count := 0; anomaly_count := 0; failure_count := 0;
     confirmed_count := 0; start_day := midnight d; input := domain;
     anomaly_ratio := None; failure_ratio := None; confirmed_ratio := None;
     weird_behavior_ratio := None |}.

Lemma bump_day_keys m ds ds' :
  bump_day m ds = Some ds' -> map fst ds' = map fst ds.
Proof.
  revert ds'. induction ds as [|[d c] ds IH]; intros ds' H; simpl in H; [discriminate|].
  destruct (d =? m_day m).
  - injection H as <-. reflexivity.
  - destruct (bump_day m ds) as [r|] eqn:E; simpl in H; [|discriminate].
    injection H as <-. simpl. f_equal. apply IH. reflexivity.
Qed.

Lemma fold_msmts_keys ms ds ds' :
  fold_msmts ms ds = Some ds' -> map fst ds' = map fst ds.
Proof.
  revert ds. induction ms as [|m ms IH]; intros ds H; simpl in H.
  - injection H as <-. reflexivity.
  - destruct (bump_day m ds) as [r|] eqn:E; [|discriminate].
    rewrite (IH _ H). apply (bump_day_keys m). exact E.
Qed.

Lemma map_outcome_bucket_days domain l ds' :
  map_outcome (bucket_of domain) l = Ret ds' ->
  map start_day ds' = map (fun p => midnight (fst p)) l.
Proof.
  revert ds'. induction l as [|[d c] l IH]; intros ds' H; simpl in H.
  - injection H as <-. reflexivity.
  - unfold MeasurementDay_init in H.
    destruct (_ && _); [|discriminate].
    destruct (map_outcome (bucket_of domain) l) as [ys| |] eqn:E; try discriminate.
    injection H as <-. simpl. f_equal. apply IH. reflexivity.
Qed.

Lemma map_outcome_empty_buckets domain (L : list Z) :
  map_outcome (bucket_of domain) (map (fun d => (d, zero_counts)) L) =
  Ret (map (empty_bucket domain) L).
Proof.
  induction L as [|d L IH]; simpl; [reflexivity|].
  rewrite IH. reflexivity.
Qed.

Lemma day_range_length d n : length (day_range d n) = n.
Proof.
  revert d. induction n as [|n IH]; intros d; simpl; [reflexivity|]. now rewrite IH.
Qed.

Lemma init_days_keys since until :
  map fst (init_days since until) = day_range (dt_day since) (n_days since until).
Proof.
  unfold init_days. rewrite map_map. simpl. apply map_id.
Qed.

(** The [get_measurements_list_api] body after the pages, as a function. *)
Lemma list_api_after_pages fuel server since until domain probe_cc test_name results :
  dt_leb since until = true ->
  follow_pages fuel server (FirstUrl (list_params since until domain probe_cc test_name)) []
    = Some (Ret results) ->
  get_measurements_list_api fuel server since until domain probe_cc test_name =
  match fold_msmts results (init_days since until) with
  | None => Some Raise
  | Some ds => Some (map_outcome (bucket_of domain) ds)
  end.
Proof.
  intros Hle Hpages. unfold get_measurements_list_api. rewrite Hle. simpl.
  rewrite Hpages. reflexivity.
Qed.

Lemma list_api_days_are_range fuel server since until domain probe_cc test_name ds' :
  get_measurements_list_api fuel server since until domain probe_cc test_name = Some (Ret ds') ->
  map start_day ds' = map midnight (day_range (dt_day since) (n_days since until)).
Proof.
  intros H. unfold get_measurements_list_api in H.
  destruct (negb (dt_leb since until)); [discriminate|].
  destruct (follow_pages _ _ _ _) as [[results| |]|]; try discriminate.
  destruct (fold_msmts results (init_days since until)) as [ds|] eqn:Ef; [|discriminate].
  injection H as H.
  change (map_outcome (bucket_of domain) ds = Ret ds') in H.
  rewrite (map_outcome_bucket_days domain ds ds' H).
  rewrite <- (map_map fst midnight). rewrite (fold_msmts_keys _ _ _ Ef).
  now rewrite init_days_keys.
Qed.

(** C4: in paginated mode, every list the function returns (whatever
    measurements the pages held) comes from a range with [since <= until]
    and has exactly one bucket per calendar day of the range, in order,
    so [until - since + 1] buckets; and when the continuation chain ends
    with no measurement at all, the result is such a list of empty buckets
    (all counts 0, all ratios absent). *)
Theorem list_api_one_bucket_per_day fuel server since until domain probe_cc test_name :
  (forall ds', get_measurements_list_api fuel server since until domain probe_cc test_name
                 = Some (Ret ds') ->
     dt_leb since until = true /\
     Z.of_nat (length ds') = dt_day until - dt_day since + 1 /\
     map start_day ds' = map midnight (day_range (dt_day since) (n_days since until))) /\
  (dt_leb since until = true ->
   follow_pages fuel server (FirstUrl (list_params since until domain probe_cc test_name)) []
     = Some (Ret []) ->
   exists ds, get_measurements_list_api fuel server since until domain probe_cc test_name
                = Some (Ret ds) /\
     Z.of_nat (length ds) = dt_day until - dt_day since + 1 /\
     map start_day ds = map midnight (day_range (dt_day since) (n_days since until)) /\
     Forall (fun d => measurement_count d = 0 /\ anomaly_count d = 0 /\
                      failure_count d = 0 /\ confirmed_count d = 0 /\
                      anomaly_ratio d = None /\ failure_ratio d = None /\
                      confirmed_ratio d = None /\ weird_behavior_ratio d = None) ds).
Proof.
  assert (Hn : dt_leb since until = true ->
               Z.of_nat (n_days since until) = dt_day until - dt_day since + 1).
  { intros Hle. unfold n_days, dt_leb in *. apply orb_prop in Hle as [H|H].
    - apply Z.ltb_lt in H. lia.
    - apply andb_prop in H as [H _]. apply Z.eqb_eq in H. lia. }
  split.
  - intros ds' H.
    assert (Hle : dt_leb since until = true).
    { unfold get_measurements_list_api in H.
      destruct (dt_leb since until); [reflexivity|discriminate]. }
    assert (Hr := list_api_days_are_range _ _ _ _ _ _ _ _ H).
    split; [exact Hle|]. split; [|exact Hr].
    rewrite <- (length_map start_day ds'), Hr, length_map, day_range_length.
    exact (Hn Hle).
  - intros Hle Hpages.
    rewrite (list_api_after_pages _ _ _ _ _ _ _ _ Hle Hpages). simpl.
    unfold init_days. rewrite map_outcome_empty_buckets.
    eexists; split; [reflexivity|]. split; [|split].
    + rewrite length_map, day_range_length. exact (Hn Hle).
    + rewrite map_map. reflexivity.
    + apply Forall_forall. intros d Hd. apply list_elem_of_In, in_map_iff in Hd as (x & <- & _).
      repeat split.
Qed.

(** The specification's example: 2024-01-01 to 2024-01-03 without records. *)
Definition jan1 : datetime := mk_dt 19723 0.
Definition jan3 : datetime := mk_dt 19725 0.

(** * Further properties of the code *)

(** ** [MeasurementDay] and [MeasurementSet] *)

Lemma insert_by_day_perm x l : insert_by_day x l ≡ₚ x :: l.
Proof.
  induction l as [|y l IH]; simpl; [reflexivity|].
  destruct (_ && _); [|reflexivity].
  etransitivity; [apply perm_skip, IH|]. apply perm_swap.
Qed.

Lemma sort_by_day_perm l : sort_by_day l ≡ₚ l.
Proof.
  induction l as [|x l IH]; simpl; [reflexivity|].
  rewrite insert_by_day_perm, IH. reflexivity.
Qed.

(** X2: [MeasurementSet.__init__] keeps exactly the given days (a
    permutation), sorted by [start_day], with each total the sum of its
    count and [total_weird_behavior] the sum of the three flagged totals. *)
Theorem MeasurementSet_init_spec (ds : list MeasurementDay) :
  let s := MeasurementSet_init ds in
  days s ≡ₚ ds /\ sorted_by_day (days s) = true /\
  total_measurements s = sum_of measurement_count ds /\
  total_anomalies s = sum_of anomaly_count ds /\
  total_failures s = sum_of failure_count ds /\
  total_confirmed s = sum_of confirmed_count ds /\
  total_weird_behavior s = total_confirmed s + total_anomalies s + total_failures s.
Proof.
  simpl. rewrite !sum_of_sort. repeat split.
  - apply sort_by_day_perm.
  - apply sort_by_day_sorted.
Qed.

(** X3: after any sequence of [add_day] calls, [days] holds the initial
    days and every added day (a permutation), is sorted by [start_day], and
    the measurement, anomaly, failure and confirmed totals are the sums
    over [days]. *)
Theorem add_days_spec (ds adds : list MeasurementDay) :
  let s := add_days (MeasurementSet_init ds) adds in
  days s ≡ₚ ds ++ adds /\ counted_totals_ok s.
Proof.
  simpl. split; [|apply add_days_counted_totals_ok].
  assert (H0 : days (MeasurementSet_init ds) ≡ₚ ds) by apply sort_by_day_perm.
  revert H0. generalize (MeasurementSet_init ds) as s0.
  revert ds. induction adds as [|d adds IH]; intros ds s0 Hs.
  - simpl. rewrite app_nil_r. exact Hs.
  - unfold add_days; simpl. rewrite (cons_middle d ds adds), app_assoc.
    apply IH. simpl. rewrite sort_by_day_perm, Hs. reflexivity.
Qed.

(** ** [get_measurements] *)

Definition row_nonneg (r : agg_row) : Prop :=
  0 <= r_measurement_count r /\ 0 <= r_anomaly_count r /\
  0 <= r_failure_count r /\ 0 <= r_confirmed_count r.

(** The day [get_measurements] builds from a row with non-negative counts. *)
Definition row_day (domain : option string) (r : agg_row) : MeasurementDay :=
  let mc := r_measurement_count r in
  {| measurement_count := mc; anomaly_count := r_anomaly_count r;
     failure_count := r_failure_count r; confirmed_count := r_confirmed_count r;
     start_day := midnight (r_measurement_start_day r); input := domain;
     anomaly_ratio := ratio_of (r_anomaly_count r) mc;
     failure_ratio := ratio_of (r_failure_count r) mc;
     confirmed_ratio := ratio_of (r_confirmed_count r) mc;
     weird_behavior_ratio :=
       ratio_of (r_confirmed_count r + r_anomaly_count r + r_failure_count r) mc |}.

Lemma row_map_ok domain rows :
  Forall row_nonneg rows ->
  map_outcome (fun r => MeasurementDay_init (r_measurement_count r) (r_anomaly_count r)
     (r_failure_count r) (midnight (r_measurement_start_day r)) domain
     (r_confirmed_count r)) rows = Ret (map (row_day domain) rows).
Proof.
  induction 1 as [|r rows (H1 & H2 & H3 & H4) _ IH]; simpl; [reflexivity|].
  rewrite IH. unfold MeasurementDay_init.
  apply Z.leb_le in H1, H2, H3, H4. rewrite H1, H2, H3, H4. reflexivity.
Qed.

Lemma row_map_raise domain rows :
  Exists (fun r => ~ row_nonneg r) rows ->
  map_outcome (fun r => MeasurementDay_init (r_measurement_count r) (r_anomaly_count r)
     (r_failure_count r) (midnight (r_measurement_start_day r)) domain
     (r_confirmed_count r)) rows = Raise.
Proof.
  induction 1 as [r rows Hr|r rows _ IH]; simpl.
  - unfold MeasurementDay_init.
    destruct (0 <=? r_measurement_count r) eqn:E1, (0 <=? r_anomaly_count r) eqn:E2,
      (0 <=? r_failure_count r) eqn:E3, (0 <=? r_confirmed_count r) eqn:E4;
      simpl; try reflexivity.
    exfalso. apply Hr. apply Z.leb_le in E1, E2, E3, E4. repeat split; assumption.
  - destruct (MeasurementDay_init _ _ _ _ _ _) eqn:E.
    + rewrite IH. reflexivity.
    + unfold MeasurementDay_init in E. destruct (_ && _); discriminate.
    + reflexivity.
Qed.

(** X4: how [get_measurements] classifies the answer to its request: a
    status other than 200 is [network_error] whatever the body, an error
    flag [bad_arguments], a missing or empty [result] list [unknown]; a
    non-empty list gives one day per row, in row order, with the row's
    counts, its day at midnight and [domain] as input, unless some row has a
    negative count, which raises. *)
Theorem get_measurements_cases server since until domain probe_cc test_name req :
  dt_leb since until = true ->
  server (agg_params since until probe_cc test_name) = Some req ->
  let r := get_measurements server since until domain probe_cc test_name in
  (agg_status req <> 200 -> r = ErrStr NETWORK_ERROR) /\
  (agg_status req = 200 -> agg_error req = true -> r = ErrStr BAD_ARGUMENTS) /\
  (agg_status req = 200 -> agg_error req = false ->
     agg_result req = None \/ agg_result req = Some [] -> r = ErrStr UNKOWN) /\
  (forall rows, agg_status req = 200 -> agg_error req = false ->
     agg_result req = Some rows -> rows <> [] ->
     (Forall row_nonneg rows -> r = Ret (map (row_day domain) rows)) /\
     (Exists (fun x => ~ row_nonneg x) rows -> r = Raise)).
Proof.
  intros Hle Hreq r. unfold r, get_measurements. rewrite Hle, Hreq. simpl.
  split; [|split; [|split]].
  - intros Hs. apply Z.eqb_neq in Hs. rewrite Hs. reflexivity.
  - intros Hs He. rewrite Hs, He. reflexivity.
  - intros Hs He [Hr|Hr]; rewrite Hs, He, Hr; reflexivity.
  - intros rows Hs He Hr Hne. rewrite Hs, He, Hr.
    destruct rows as [|r0 rows]; [congruence|]. split.
    + apply row_map_ok.
    + apply row_map_raise.
Qed.

Definition ok_row : agg_row :=
  {| r_measurement_count := 4; r_anomaly_count := 1; r_failure_count := 0;
     r_confirmed_count := 0; r_measurement_start_day := 19723 |}.
Definition ok_agg_server : agg_server :=
  fun _ => Some {| agg_status := 200; agg_error := false; agg_result := Some [ok_row] |}.

Lemma get_measurements_cases_witness :
  get_measurements ok_agg_server jan1 jan3 (Some "a") "VE" None
  = Ret (map (row_day (Some "a")) [ok_row]).
Proof.
  destruct (get_measurements_cases ok_agg_server jan1 jan3 (Some "a") "VE" None
              {| agg_status := 200; agg_error := false; agg_result := Some [ok_row] |}
              eq_refl eq_refl) as (_ & _ & _ & H).
  apply (H [ok_row] eq_refl eq_refl eq_refl); [discriminate|].
  repeat constructor; simpl; lia.
Defined.

(** ** [get_measurements_list_api] *)

Definition option_outcome_map {A B} (f : A -> B) (o : option (outcome A)) : option (outcome B) :=
  option_map (outcome_map f) o.

(** X5: the page loop only appends: following the chain with records
    [acc] already collected gives [acc] followed by what following it from
    nothing gives, and every error or exception is the same. *)
Theorem follow_pages_accumulates fuel server u acc :
  follow_pages fuel server u acc =
  option_outcome_map (fun rs => acc ++ rs) (follow_pages fuel server u []).
Proof.
  revert u acc. induction fuel as [|fuel IH]; intros u acc; simpl; [reflexivity|].
  destruct (server u) as [req|]; [|reflexivity].
  destruct (negb _); [reflexivity|]. destruct (pg_error req); [reflexivity|].
  destruct (pg_metadata req) as [next|]; [|reflexivity].
  destruct (pg_results req) as [rs|]; [|reflexivity].
  destruct next as [v|]; [|reflexivity].
  rewrite (IH _ (acc ++ rs)), (IH _ ([] ++ rs)).
  unfold option_outcome_map. destruct (follow_pages fuel server (NextUrl v) []) as [[| |]|];
    simpl; try reflexivity. rewrite app_assoc. reflexivity.
Qed.

Lemma bump_day_missing m ds :
  ~ In (m_day m) (map fst ds) -> bump_day m ds = None.
Proof.
  induction ds as [|[d c] ds IH]; intros Hn; simpl; [reflexivity|].
  simpl in Hn. destruct (Z.eqb_spec d (m_day m)) as [->|Hne].
  - exfalso. apply Hn. left. reflexivity.
  - rewrite IH; [reflexivity|]. intros Hin. apply Hn. right. exact Hin.
Qed.

Lemma fold_msmts_missing ms ds m :
  In m ms -> ~ In (m_day m) (map fst ds) -> fold_msmts ms ds = None.
Proof.
  revert ds. induction ms as [|m0 ms IH]; intros ds Hin Hn; [destruct Hin|].
  simpl. destruct Hin as [<-|Hin].
  - rewrite bump_day_missing by exact Hn. reflexivity.
  - destruct (bump_day m0 ds) as [ds'|] eqn:E; [|reflexivity].
    apply IH; [exact Hin|]. rewrite (bump_day_keys _ _ _ E). exact Hn.
Qed.

Lemma in_day_range x d n : In x (day_range d n) <-> d <= x < d + Z.of_nat n.
Proof.
  revert d. induction n as [|n IH]; intros d; simpl; [lia|].
  rewrite IH. lia.
Qed.

(** X6: a measurement whose day lies outside [[since, until]] makes the
    paginated fetch raise ([KeyError] on the [days] dict) instead of being
    dropped or counted. *)
Theorem list_api_out_of_range_raises fuel server since until domain probe_cc test_name
    results m :
  dt_leb since until = true ->
  follow_pages fuel server (FirstUrl (list_params since until domain probe_cc test_name)) []
    = Some (Ret results) ->
  In m results -> (m_day m < dt_day since \/ dt_day until < m_day m) ->
  get_measurements_list_api fuel server since until domain probe_cc test_name = Some Raise.
Proof.
  intros Hle Hp Hin Hout. rewrite (list_api_after_pages _ _ _ _ _ _ _ _ Hle Hp).
  rewrite (fold_msmts_missing _ _ m Hin); [reflexivity|].
  rewrite init_days_keys, in_day_range. unfold n_days. lia.
Qed.

Definition late_msmt : msmt :=
  {| m_day := 19726; m_anomaly := true; m_failure := false; m_confirmed := false |}.
Definition late_list_server : list_server :=
  fun _ => Some {| pg_status := 200; pg_error := false; pg_metadata := Some None;
                   pg_results := Some [late_msmt] |}.

Lemma list_api_out_of_range_raises_witness :
  get_measurements_list_api 1 late_list_server jan1 jan3 None "VE" None = Some Raise.
Proof.
  apply (list_api_out_of_range_raises 1 late_list_server jan1 jan3 None "VE" None
           [late_msmt] late_msmt eq_refl eq_refl); [left; reflexivity|].
  right. simpl. lia.
Defined.

Definition csum (h : counts -> Z) (l : list (Z * counts)) : Z :=
  fold_right (fun p acc => h (snd p) + acc) 0 l.

Lemma bump_day_csum_add (h : counts -> Z) (k : Z) m ds ds' :
  (forall c, h (add_msmt m c) = h c + k) ->
  bump_day m ds = Some ds' -> csum h ds' = csum h ds + k.
Proof.
  intros Hh. revert ds'. induction ds as [|[d c] ds IH]; intros ds' H; simpl in H;
    [discriminate|].
  destruct (d =? m_day m).
  - injection H as <-. simpl. rewrite Hh. lia.
  - destruct (bump_day m ds) as [r|] eqn:E; simpl in H; [|discriminate].
    injection H as <-. simpl. rewrite (IH r eq_refl). lia.
Qed.

Lemma fold_msmts_csum (h : counts -> Z) (flag : msmt -> bool) ms ds ds' :
  (forall m c, h (add_msmt m c) = h c + Z.b2z (flag m)) ->
  fold_msmts ms ds = Some ds' ->
  csum h ds' = csum h ds + Z.of_nat (length (List.filter flag ms)).
Proof.
  intros Hh. revert ds. induction ms as [|m ms IH]; intros ds H; simpl in H.
  - injection H as <-. simpl. lia.
  - destruct (bump_day m ds) as [r|] eqn:E; [|discriminate].
    rewrite (IH _ H), (bump_day_csum_add h (Z.b2z (flag m)) m ds r (Hh m) E).
    simpl. destruct (flag m) eqn:Ef; simpl; rewrite ?Ef; simpl; lia.
Qed.

(** The per-day counters of the [days] dict: every flag count within the
    measurement count. *)
Definition counts_ok (c : counts) : Prop :=
  0 <= c_anomaly c <= c_measurement c /\ 0 <= c_failure c <= c_measurement c /\
  0 <= c_confirmed c <= c_measurement c.

Lemma bump_day_counts_ok m ds ds' :
  Forall (fun p => counts_ok (snd p)) ds -> bump_day m ds = Some ds' ->
  Forall (fun p => counts_ok (snd p)) ds'.
Proof.
  revert ds'. induction ds as [|[d c] ds IH]; intros ds' Hall H; simpl in H;
    [discriminate|].
  inversion Hall as [|? ? Hc Hrest]; subst.
  destruct (d =? m_day m).
  - injection H as <-. constructor; [|exact Hrest].
    destruct Hc as (? & ? & ?). unfold counts_ok, add_msmt; simpl.
    simpl in *. destruct (m_anomaly m), (m_failure m), (m_confirmed m); simpl; lia.
  - destruct (bump_day m ds) as [r|] eqn:E; simpl in H; [|discriminate].
    injection H as <-. constructor; [exact Hc|]. apply IH; [exact Hrest|reflexivity].
Qed.

Lemma fold_msmts_counts_ok ms ds ds' :
  Forall (fun p => counts_ok (snd p)) ds -> fold_msmts ms ds = Some ds' ->
  Forall (fun p => counts_ok (snd p)) ds'.
Proof.
  revert ds. induction ms as [|m ms IH]; intros ds Hall H; simpl in H.
  - injection H as <-. exact Hall.
  - destruct (bump_day m ds) as [r|] eqn:E; [|discriminate].
    apply (IH r); [|exact H]. exact (bump_day_counts_ok m ds r Hall E).
Qed.

Lemma bucket_of_counts domain p x :
  bucket_of domain p = Ret x ->
  measurement_count x = c_measurement (snd p) /\ anomaly_count x = c_anomaly (snd p) /\
  failure_count x = c_failure (snd p) /\ confirmed_count x = c_confirmed (snd p).
Proof.
  destruct p as [d c]. simpl. unfold MeasurementDay_init.
  destruct (_ && _); [|discriminate]. intros [= <-]. simpl. repeat split.
Qed.

Lemma map_outcome_bucket_sum domain (g : MeasurementDay -> Z) (h : counts -> Z) ds out :
  (forall p x, bucket_of domain p = Ret x -> g x = h (snd p)) ->
  map_outcome (bucket_of domain) ds = Ret out -> sum_of g out = csum h ds.
Proof.
  intros Hgh. revert out. induction ds as [|p ds IH]; intros out H; simpl in H.
  - injection H as <-. reflexivity.
  - destruct (bucket_of domain p) as [x| |] eqn:Ep; try discriminate.
    destruct (map_outcome (bucket_of domain) ds) as [ys| |]; try discriminate.
    injection H as <-. unfold sum_of. simpl. fold (sum_of g ys).
    rewrite (Hgh p x Ep), (IH ys eq_refl). reflexivity.
Qed.

Lemma map_outcome_bucket_Forall domain (P : counts -> Prop) (Q : MeasurementDay -> Prop) ds out :
  (forall p x, bucket_of domain p = Ret x -> P (snd p) -> Q x) ->
  Forall (fun p => P (snd p)) ds ->
  map_outcome (bucket_of domain) ds = Ret out -> Forall Q out.
Proof.
  intros HPQ Hall. revert out. induction Hall as [|p ds Hp Hrest IH]; intros out H;
    simpl in H.
  - injection H as <-. constructor.
  - destruct (bucket_of domain p) as [x| |] eqn:Ep; try discriminate.
    destruct (map_outcome (bucket_of domain) ds) as [ys| |]; try discriminate.
    injection H as <-. constructor; [exact (HPQ p x Ep Hp)|]. apply IH. reflexivity.
Qed.

Definition day_counts_ok (d : MeasurementDay) : Prop :=
  0 <= anomaly_count d <= measurement_count d /\
  0 <= failure_count d <= measurement_count d /\
  0 <= confirmed_count d <= measurement_count d.

Lemma init_days_counts_ok since until :
  Forall (fun p => counts_ok (snd p)) (init_days since until).
Proof.
  unfold init_days. apply Forall_forall. intros p Hp.
  apply list_elem_of_In, in_map_iff in Hp as (d & <- & _).
  unfold counts_ok; simpl. lia.
Qed.

Lemma list_api_days_counts_ok fuel server since until domain probe_cc test_name ds :
  get_measurements_list_api fuel server since until domain probe_cc test_name = Some (Ret ds) ->
  Forall day_counts_ok ds.
Proof.
  intros H. unfold get_measurements_list_api in H.
  destruct (negb (dt_leb since until)); [discriminate|].
  destruct (follow_pages _ _ _ _) as [[results| |]|]; try discriminate.
  destruct (fold_msmts results (init_days since until)) as [dd|] eqn:Ef; [|discriminate].
  injection H as H. change (map_outcome (bucket_of domain) dd = Ret ds) in H.
  apply (map_outcome_bucket_Forall domain counts_ok day_counts_ok dd ds); [|
    exact (fold_msmts_counts_ok _ _ _ (init_days_counts_ok since until) Ef) | exact H].
  intros p x Hx Hc. unfold day_counts_ok.
  destruct (bucket_of_counts domain p x Hx) as (-> & -> & -> & ->). exact Hc.
Qed.

(** X7: every measurement of the pages is counted once: over the buckets
    the paginated fetch returns, the measurement count sums to the number
    of records and each flag count to the number of records with that
    flag, and no bucket has a flag count above its measurement count. *)
Theorem list_api_counts fuel server since until domain probe_cc test_name results ds :
  follow_pages fuel server (FirstUrl (list_params since until domain probe_cc test_name)) []
    = Some (Ret results) ->
  get_measurements_list_api fuel server since until domain probe_cc test_name = Some (Ret ds) ->
  sum_of measurement_count ds = Z.of_nat (length results) /\
  sum_of anomaly_count ds = Z.of_nat (length (List.filter m_anomaly results)) /\
  sum_of failure_count ds = Z.of_nat (length (List.filter m_failure results)) /\
  sum_of confirmed_count ds = Z.of_nat (length (List.filter m_confirmed results)) /\
  Forall day_counts_ok ds.
Proof.
  intros Hp H. unfold get_measurements_list_api in H.
  destruct (negb (dt_leb since until)); [discriminate|]. rewrite Hp in H.
  destruct (fold_msmts results (init_days since until)) as [dd|] eqn:Ef; [|discriminate].
  injection H as H. change (map_outcome (bucket_of domain) dd = Ret ds) in H.
  assert (Hcz : forall h : counts -> Z, h zero_counts = 0 ->
            csum h (init_days since until) = 0).
  { intros h Hh. unfold init_days.
    induction (day_range (dt_day since) (n_days since until)) as [|d l IH]; simpl;
      [reflexivity|]. rewrite Hh. simpl in IH. lia. }
  split; [|split; [|split; [|split]]].
  - rewrite (map_outcome_bucket_sum domain measurement_count c_measurement dd ds);
      [| intros p x Hx; apply (bucket_of_counts domain p x Hx) | exact H].
    rewrite (fold_msmts_csum c_measurement (fun _ => true) results _ _ (fun m c => eq_refl) Ef).
    rewrite Hcz by reflexivity. rewrite List.filter_true. lia.
  - rewrite (map_outcome_bucket_sum domain anomaly_count c_anomaly dd ds);
      [| intros p x Hx; apply (bucket_of_counts domain p x Hx) | exact H].
    rewrite (fold_msmts_csum c_anomaly m_anomaly results _ _ (fun m c => eq_refl) Ef).
    rewrite Hcz by reflexivity. lia.
  - rewrite (map_outcome_bucket_sum domain failure_count c_failure dd ds);
      [| intros p x Hx; apply (bucket_of_counts domain p x Hx) | exact H].
    rewrite (fold_msmts_csum c_failure m_failure results _ _ (fun m c => eq_refl) Ef).
    rewrite Hcz by reflexivity. lia.
  - rewrite (map_outcome_bucket_sum domain confirmed_count c_confirmed dd ds);
      [| intros p x Hx; apply (bucket_of_counts domain p x Hx) | exact H].
    rewrite (fold_msmts_csum c_confirmed m_confirmed results _ _ (fun m c => eq_refl) Ef).
    rewrite Hcz by reflexivity. lia.
  - apply (map_outcome_bucket_Forall domain counts_ok day_counts_ok dd ds); [|
      exact (fold_msmts_counts_ok _ _ _ (init_days_counts_ok since until) Ef) | exact H].
    intros p x Hx Hc. unfold day_counts_ok.
    destruct (bucket_of_counts domain p x Hx) as (-> & -> & -> & ->). exact Hc.
Qed.

Definition jan2_msmt : msmt :=
  {| m_day := 19724; m_anomaly := true; m_failure := false; m_confirmed := false |}.
Definition one_list_server : list_server :=
  fun _ => Some {| pg_status := 200; pg_error := false; pg_metadata := Some None;
                   pg_results := Some [jan2_msmt] |}.

Lemma list_api_counts_witness :
  exists ds, get_measurements_list_api 1 one_list_server jan1 jan3 None "VE" None
               = Some (Ret ds) /\
     sum_of measurement_count ds = 1 /\ sum_of anomaly_count ds = 1.
Proof.
  eexists. split; [reflexivity|].
  destruct (list_api_counts 1 one_list_server jan1 jan3 None "VE" None [jan2_msmt] _
              eq_refl eq_refl) as (H1 & H2 & _).
  rewrite H1, H2. split; reflexivity.
Defined.

Lemma sum_of_le (f g : MeasurementDay -> Z) l :
  Forall (fun d => f d <= g d) l -> sum_of f l <= sum_of g l.
Proof.
  unfold sum_of. induction 1; simpl; lia.
Qed.

(** X8: the anomaly rate the run computes from a paginated fetch is the
    sentinel -1 or lies in [[0, 1]]. *)
Theorem list_api_ratio_bounds fuel server since until domain probe_cc test_name ds :
  get_measurements_list_api fuel server since until domain probe_cc test_name = Some (Ret ds) ->
  (run_ratio ds == -1)%Q \/ (0 <= run_ratio ds <= 1)%Q.
Proof.
  intros H.
  assert (Hok := list_api_days_counts_ok fuel server since until domain probe_cc test_name ds H).
  assert (Hle : sum_of anomaly_count ds <= sum_of measurement_count ds)
    by (apply sum_of_le; eapply Forall_impl; [exact Hok|]; intros d Hd; apply Hd).
  assert (H0 : 0 <= sum_of anomaly_count ds)
    by (apply sum_of_nonneg; eapply Forall_impl; [exact Hok|]; intros d Hd; apply Hd).
  unfold run_ratio, get_avg_anomalies, MeasurementSet_init, avg_of; simpl.
  rewrite !sum_of_sort.
  destruct (Z.eqb_spec (sum_of measurement_count ds) 0) as [E|E]; simpl.
  - left. reflexivity.
  - right. split.
    + apply inject_Z_div_nonneg; lia.
    + apply Qle_shift_div_r.
      * change 0%Q with (inject_Z 0). rewrite <- Zlt_Qlt. lia.
      * rewrite Qmult_1_l. rewrite <- Zle_Qle. exact Hle.
Qed.

Lemma list_api_ratio_bounds_witness :
  exists ds, get_measurements_list_api 1 one_list_server jan1 jan3 None "VE" None
               = Some (Ret ds) /\ ((run_ratio ds == -1)%Q \/ (0 <= run_ratio ds <= 1)%Q).
Proof.
  eexists. split; [reflexivity|].
  exact (list_api_ratio_bounds 1 one_list_server jan1 jan3 None "VE" None _ eq_refl).
Defined.

(** ** Saving and loading the configuration *)

(** X9: the file [save] leaves behind read back by [load] into any
    object: after a successful save, every field of the saved object and
    the [state] of the reading one; after an [open] that fails, whatever
    the old file gives; after a write cut short, the error state alone,
    unless only the final newline was lost. The saved object's [state] is
    the error exactly when the save failed. *)
Theorem load_save_roundtrip (r : write_result) (c c' : PermaConfig) (old : option json) :
  load (snd (save r c old)) c' =
    (match r with
     | WriteOk | WriteFails true => set_state (state c') c
     | OpenFails => load old c'
     | WriteFails false => set_state COULD_NOT_ACCESS_CONFIG_FILE c'
     end) /\
  fst (save r c old) =
    (match r with
     | WriteOk => c
     | _ => set_state COULD_NOT_ACCESS_CONFIG_FILE c
     end).
Proof.
  split; [|destruct r; reflexivity].
  destruct r as [|[]|]; simpl; try reflexivity; destruct c, c'; reflexivity.
Qed.

(** ** Frame of one iteration of the run loop *)

Lemma run_input_effects crit line now fetched st st' :
  run_input crit line now fetched st = Ret st' ->
  (forall k, k <> line -> urls st' !! k = urls st !! k) /\
  (exists evs, events st' = events st ++ evs) /\
  (forall err, fetched = ErrStr err -> urls st' = urls st) /\
  (forall ds, fetched = Ret ds ->
     exists e, urls st' !! line = Some e /\ last_check e = Some now).
Proof.
  unfold run_input. destruct fetched as [ds|err|]; [|intros [= <-]|discriminate].
  - rewrite add_entry_lookup_eq.
    assert (Hk : forall k x, k <> line ->
              <[line := x]> (add_entry line (urls st)) !! k = urls st !! k).
    { intros k x Hk. rewrite lookup_insert_ne by congruence.
      unfold add_entry. destruct (urls st !! line); [reflexivity|].
      rewrite lookup_insert_ne by congruence. reflexivity. }
    destruct (Qeq_bool _ (-1)); intros [= <-]; simpl.
    + split; [intros k; apply Hk|].
      split; [exists []; now rewrite app_nil_r|].
      split; [discriminate|].
      intros ds' _. eexists. split; [apply lookup_insert_eq|reflexivity].
    + split; [intros k; apply Hk|].
      split; [destruct (Qltb _ _); [eexists; reflexivity|exists []; now rewrite app_nil_r]|].
      split; [discriminate|].
      intros ds' _. eexists. split; [apply lookup_insert_eq|reflexivity].
  - simpl. split; [reflexivity|]. split; [eexists; reflexivity|]. split; [reflexivity|].
    discriminate.
Qed.

(** X10: one iteration of the loop changes no entry but the one of its
    own line, only appends to what was logged or notified, leaves the
    entries alone when the fetch gave an error string, and, when the
    fetch succeeded, leaves an entry for the line checked at [now]. *)
Theorem run_input_frame crit line now fetched st st' :
  run_input crit line now fetched st = Ret st' ->
  (forall k, k <> line -> urls st' !! k = urls st !! k) /\
  (exists evs, events st' = events st ++ evs) /\
  (forall err, fetched = ErrStr err -> urls st' = urls st) /\
  (forall ds, fetched = Ret ds ->
     exists e, urls st' !! line = Some e /\ last_check e = Some now).
Proof.
  apply run_input_effects.
Qed.

Lemma run_input_frame_witness :
  exists st', run_input (1 # 10) "a" "2024-01-02 00:00:00" (Ret [half_day]) empty_run = Ret st' /\
    (forall k, k <> "a"%string -> urls st' !! k = urls empty_run !! k) /\
    (exists evs, events st' = events empty_run ++ evs) /\
    (forall err, Ret [half_day] = ErrStr err -> urls st' = urls empty_run) /\
    (forall ds, Ret [half_day] = Ret ds ->
       exists e, urls st' !! "a"%string = Some e /\ last_check e = Some "2024-01-02 00:00:00"%string).
Proof.
  eexists; split; [reflexivity|].
  exact (run_input_frame (1 # 10) "a" "2024-01-02 00:00:00" (Ret [half_day]) empty_run _ eq_refl).
Defined.

(** ** The whole loop of [AOCW.run] *)

Lemma trim_line_not_err raw e : trim_line raw <> ErrStr e.
Proof.
  unfold trim_line. destruct raw; [discriminate|]. destruct (String.eqb _ _); discriminate.
Qed.

Lemma run_input_not_err crit line now fetched st e :
  run_input crit line now fetched st <> ErrStr e.
Proof.
  unfold run_input. destruct fetched; [|discriminate|discriminate].
  destruct (_ !! line); [|discriminate]. destruct (Qeq_bool _ _); discriminate.
Qed.

(** X12: one fetch that raises (an answer that is not JSON, a record
    outside the range, ...) anywhere in the loop makes [run] end with
    [COULD_NOT_ACCESS_LIST_FILE] and save nothing, not even the entries
    the earlier lines updated. *)
Theorem run_abort_discards crit steps st (write_ok : bool) :
  (exists raw now, In (raw, Raise, now) steps) ->
  run_finish write_ok (run_loop crit steps st) = (COULD_NOT_ACCESS_LIST_FILE, None).
Proof.
  intros Hin. enough (run_loop crit steps st = Raise) as -> by reflexivity.
  revert st. induction steps as [|[[raw fetched] now] steps IH]; intros st.
  - destruct Hin as (? & ? & []).
  - simpl.
    destruct (trim_line raw) as [line|e|] eqn:Et;
      [|exfalso; exact (trim_line_not_err _ _ Et)|reflexivity].
    destruct (run_input crit line now fetched st) as [st'|e|] eqn:Er;
      [|exfalso; exact (run_input_not_err _ _ _ _ _ _ Er)|reflexivity].
    apply IH. destruct Hin as (r & n & [Heq|H]).
    + injection Heq as -> -> ->. discriminate.
    + eauto.
Qed.

Definition sample_steps : list step :=
  [("a" ++ newline, Ret [half_day], "2024-01-02 00:00:00");
   ("b", Raise, "2024-01-02 00:00:01")]%string.

Lemma run_abort_discards_witness :
  run_loop (1 # 10) (firstn 1 sample_steps) empty_run <> Raise /\
  run_finish true (run_loop (1 # 10) sample_steps empty_run) = (COULD_NOT_ACCESS_LIST_FILE, None).
Proof.
  split; [vm_compute; discriminate|].
  apply run_abort_discards. exists "b"%string, "2024-01-02 00:00:01"%string.
  right. left. reflexivity.
Defined.

Lemma run_input_keys crit line now fetched st st' k :
  run_input crit line now fetched st = Ret st' ->
  (is_Some (urls st' !! k) <->
   is_Some (urls st !! k) \/ (k = line /\ exists ds, fetched = Ret ds)).
Proof.
  intros H. destruct (String.eq_dec k line) as [->|Hne].
  - destruct fetched as [ds|err|].
    + destruct (proj2 (proj2 (proj2 (run_input_effects _ _ _ _ _ _ H))) ds eq_refl) as (e & He & _).
      rewrite He. split; [eauto|intros _; eauto].
    + rewrite (proj1 (proj2 (proj2 (run_input_effects _ _ _ _ _ _ H))) err eq_refl).
      split; [tauto|]. intros [?|(_ & ds & ?)]; [assumption|discriminate].
    + discriminate.
  - rewrite (proj1 (run_input_effects _ _ _ _ _ _ H) k Hne). split; [tauto|].
    intros [?|(? & _)]; [assumption|contradiction].
Qed.

(** X13: after the loop, the config holds an entry exactly for the urls it
    held before and the trimmed lines whose fetch succeeded; a line whose
    fetch gave an error string gets no entry. *)
Theorem run_loop_entries crit steps st st' k :
  run_loop crit steps st = Ret st' ->
  (is_Some (urls st' !! k) <->
   is_Some (urls st !! k) \/
   exists raw ds now, In (raw, Ret ds, now) steps /\ trim_line raw = Ret k).
Proof.
  revert st. induction steps as [|[[raw fetched] now] steps IH]; intros st H; simpl in H.
  - injection H as <-. split; [tauto|]. intros [?|(? & ? & ? & [] & _)]; assumption.
  - destruct (trim_line raw) as [line|e|] eqn:Et; try discriminate.
    destruct (run_input crit line now fetched st) as [st1|e|] eqn:Er; try discriminate.
    rewrite (IH st1 H), (run_input_keys _ _ _ _ _ _ k Er). split.
    + intros [[?|(-> & ds & ->)]|(r & ds & n & Hin & Ht)].
      * left. assumption.
      * right. exists raw, ds, now. split; [left; reflexivity|assumption].
      * right. exists r, ds, n. split; [right; assumption|assumption].
    + intros [?|(r & ds & n & [Heq|Hin] & Ht)].
      * left. left. assumption.
      * injection Heq as -> -> ->. rewrite Et in Ht. injection Ht as ->.
        left. right. eauto.
      * right. exists r, ds, n. split; assumption.
Qed.

Lemma run_loop_entries_witness :
  exists st', run_loop (1 # 10) (firstn 1 sample_steps) empty_run = Ret st' /\
    (is_Some (urls st' !! "a"%string) <->
     is_Some (urls empty_run !! "a"%string) \/
     exists raw ds now, In (raw, Ret ds, now) (firstn 1 sample_steps) /\ trim_line raw = Ret "a"%string).
Proof.
  eexists; split; [reflexivity|].
  exact (run_loop_entries (1 # 10) (firstn 1 sample_steps) empty_run _ "a" eq_refl).
Defined.

(** ** [AOC_CLI.Config] *)

Lemma map_outcome_length {A B} (f : A -> outcome B) l l' :
  map_outcome f l = Ret l' -> length l' = length l.
Proof.
  revert l'. induction l as [|x l IH]; intros l'; simpl.
  - intros [= <-]. reflexivity.
  - destruct (f x); [|discriminate|discriminate].
    destruct (map_outcome f l) as [ys| |]; [|discriminate|discriminate].
    intros [= <-]. simpl. f_equal. apply IH. reflexivity.
Qed.

(** X14: [Config] never reports [INCONSISTENT_DATES]: two dates that parse
    but are in the wrong order are reported as [DATE_FORMAT_ERROR]. *)
Theorem Config_init_reversed_dates parse_date read_lines args since until :
  (3 <= length args)%nat ->
  parse_date (nth 1 args ""%string) = Some since ->
  parse_date (nth 2 args ""%string) = Some until ->
  dt_leb since until = false ->
  Config_init parse_date read_lines args = Ret (cfg_fail DATE_FORMAT_ERROR) /\
  forall args' c, Config_init parse_date read_lines args' = Ret c ->
    cfg_error c <> INCONSISTENT_DATES.
Proof.
  intros Hlen Hs Hu Hle. split.
  - unfold Config_init. rewrite Hs, Hu, Hle.
    destruct (Nat.ltb_spec (length args) 3); [lia|reflexivity].
  - intros args' c. unfold Config_init.
    assert (Hf : forall e, e <> INCONSISTENT_DATES -> Ret (cfg_fail e) = Ret c ->
                   cfg_error c <> INCONSISTENT_DATES) by (intros e He [= <-]; exact He).
    assert (Hk : forall s u f i, Ret (cfg_ok s u f i) = Ret c -> cfg_error c <> INCONSISTENT_DATES)
      by (intros s u f i [= <-]; discriminate).
    destruct (length args' <? 3)%nat; [apply Hf; discriminate|].
    destruct (parse_date (nth 1 args' _)) as [s|]; [|apply Hf; discriminate].
    destruct (parse_date (nth 2 args' _)) as [u|]; [|apply Hf; discriminate].
    destruct (negb (dt_leb s u)); [apply Hf; discriminate|].
    destruct (4 <=? length args')%nat; [|apply Hk].
    destruct (nth 3 args' _) as [|a r]; [discriminate|].
    destruct (Ascii.eqb _ _); [apply Hk|].
    destruct (read_lines _) as [lines|]; [|apply Hf; discriminate].
    destruct (map_outcome trim_line lines); [apply Hk|apply Hf; discriminate|apply Hf; discriminate].
Qed.

(** The parser and the file of the samples below: one date per day. *)
Definition sample_parse_date (s : string) : option datetime :=
  if String.eqb s "2024-01-01" then Some jan1
  else if String.eqb s "2024-01-03" then Some jan3 else None.

Definition sample_read_lines (path : string) : option (list string) :=
  if String.eqb path "list.txt" then Some ["a.org" ++ newline; "b.org"]%string else None.

Lemma Config_init_reversed_dates_witness :
  Config_init sample_parse_date sample_read_lines ["aoc"; "2024-01-03"; "2024-01-01"]%string
    = Ret (cfg_fail DATE_FORMAT_ERROR).
Proof.
  refine (proj1 (Config_init_reversed_dates sample_parse_date sample_read_lines
                   ["aoc"; "2024-01-03"; "2024-01-01"]%string jan3 jan1 _ _ _ _));
    vm_compute; reflexivity.
Defined.

Ltac fail_case :=
  let H := fresh in let Hok := fresh in
  intros H Hok; injection H as <-; vm_compute in Hok; discriminate Hok.

(** X15: a [Config] without error has both dates, parsed from the first
    two arguments and in order. Its inputs are none and it has no file when
    there is no fourth argument or the fourth starts with '-'; otherwise its
    file is the fourth argument, and its inputs are exactly the lines read
    from that file, one input per line, each stripped of one trailing
    newline. *)
Theorem Config_init_ok parse_date read_lines args c :
  Config_init parse_date read_lines args = Ret c ->
  cfg_error c = OK ->
  exists since until ins,
    parse_date (nth 1 args ""%string) = Some since /\
    parse_date (nth 2 args ""%string) = Some until /\
    cfg_since c = Some since /\ cfg_until c = Some until /\ cfg_inputs c = Some ins /\
    dt_leb since until = true /\
    (((length args < 4)%nat \/
      exists r, nth 3 args ""%string = String (Ascii.ascii_of_nat 45) r) /\
     cfg_file c = None /\ ins = [] \/
     (exists a r lines,
        (4 <= length args)%nat /\ nth 3 args ""%string = String a r /\
        a <> Ascii.ascii_of_nat 45 /\
        cfg_file c = Some (nth 3 args ""%string) /\
        read_lines (nth 3 args ""%string) = Some lines /\
        map_outcome trim_line lines = Ret ins /\ length ins = length lines)).
Proof.
  unfold Config_init.
  destruct (length args <? 3)%nat; [fail_case|].
  destruct (parse_date (nth 1 args _)) as [s|] eqn:Hs; [|fail_case].
  destruct (parse_date (nth 2 args _)) as [u|] eqn:Hu; [|fail_case].
  destruct (dt_leb s u) eqn:Hsu; cbn [negb]; [|fail_case].
  destruct (Nat.leb_spec 4 (length args)) as [H4|H4].
  - destruct (nth 3 args _) as [|a r] eqn:Ea; [intros H; discriminate H|].
    destruct (Ascii.eqb_spec a (Ascii.ascii_of_nat 45)) as [Ha|Ha].
    + intros [= <-] _. exists s, u, [].
      do 6 (split; [assumption || reflexivity|]).
      left. split; [right; exists r; rewrite Ha; reflexivity|split; reflexivity].
    + destruct (read_lines (String a r)) as [lines|] eqn:Er; [|fail_case].
      destruct (map_outcome trim_line lines) as [ins| |] eqn:Em; [|fail_case|fail_case].
      intros [= <-] _. exists s, u, ins.
      do 6 (split; [assumption || reflexivity|]).
      right. exists a, r, lines.
      repeat split; try assumption.
      exact (map_outcome_length _ _ _ Em).
  - intros [= <-] _. exists s, u, [].
    do 6 (split; [assumption || reflexivity|]).
    left. split; [left; exact H4|split; reflexivity].
Qed.

Definition sample_args : list string := ["aoc"; "2024-01-01"; "2024-01-03"; "list.txt"]%string.

Lemma Config_init_ok_witness :
  exists c, Config_init sample_parse_date sample_read_lines sample_args = Ret c /\
    cfg_error c = OK /\ cfg_inputs c = Some ["a.org"; "b.org"]%string /\
    exists since until ins,
      sample_parse_date (nth 1 sample_args ""%string) = Some since /\
      sample_parse_date (nth 2 sample_args ""%string) = Some until /\
      cfg_since c = Some since /\ cfg_until c = Some until /\ cfg_inputs c = Some ins /\
      dt_leb since until = true /\
      (((length sample_args < 4)%nat \/
        exists r, nth 3 sample_args ""%string = String (Ascii.ascii_of_nat 45) r) /\
       cfg_file c = None /\ ins = [] \/
       (exists a r lines,
          (4 <= length sample_args)%nat /\ nth 3 sample_args ""%string = String a r /\
          a <> Ascii.ascii_of_nat 45 /\
          cfg_file c = Some (nth 3 sample_args ""%string) /\
          sample_read_lines (nth 3 sample_args ""%string) = Some lines /\
          map_outcome trim_line lines = Ret ins /\ length ins = length lines)).
Proof.
  eexists. split; [vm_compute; reflexivity|]. split; [reflexivity|]. split; [reflexivity|].
  exact (Config_init_ok sample_parse_date sample_read_lines sample_args _
           ltac:(vm_compute; reflexivity) eq_refl).
Defined.

(** ** [days_from_config] *)

Lemma insert_by_day_head x l :
  match l with [] => True | y :: _ => dt_leb (start_day x) (start_day y) = true end ->
  insert_by_day x l = x :: l.
Proof.
  destruct l as [|y l]; simpl; [reflexivity|]. intros ->. rewrite andb_false_r. reflexivity.
Qed.

Lemma sort_by_day_sorted_id l : sorted_by_day l = true -> sort_by_day l = l.
Proof.
  induction l as [|x l IH]; simpl; [reflexivity|]. intros H.
  destruct l as [|y l].
  - reflexivity.
  - apply andb_prop in H as [Hxy Hl]. rewrite (IH Hl). apply insert_by_day_head. exact Hxy.
Qed.

Lemma range_sorted l d n :
  map start_day l = map midnight (day_range d n) -> sorted_by_day l = true.
Proof.
  revert d n. induction l as [|x l IH]; intros d n H; [reflexivity|].
  destruct n as [|n]; [discriminate|]. simpl in H. injection H as Hx Hl.
  simpl. destruct l as [|y l]; [reflexivity|].
  assert (Hs := IH (d + 1) n Hl).
  destruct n as [|n]; [discriminate|]. simpl in Hl. injection Hl as Hy _.
  rewrite Hx, Hy, Hs. unfold dt_leb, midnight; simpl.
  replace (d <? d + 1) with true by (symmetry; apply Z.ltb_lt; lia). reflexivity.
Qed.

Lemma list_api_range_nonempty fuel server since until domain probe_cc test_name ds :
  get_measurements_list_api fuel server since until domain probe_cc test_name = Some (Ret ds) ->
  (1 <= n_days since until)%nat.
Proof.
  unfold get_measurements_list_api. destruct (dt_leb since until) eqn:E; [|discriminate].
  intros _. unfold n_days, dt_leb in *.
  apply orb_prop in E as [E|E]; [apply Z.ltb_lt in E|apply andb_prop in E as [E _]; apply Z.eqb_eq in E];
    lia.
Qed.

Lemma rows_for_inputs_rows fuel server since until ins rows0 rows :
  rows_for_inputs fuel server since until ins rows0 = Some (Ret rows) ->
  exists new, rows = rows0 ++ new /\ (length new <= length ins)%nat /\
    Forall (fun r => exists dom ds,
              get_measurements_list_api fuel server since until (Some dom) "VE" None
                = Some (Ret ds) /\ r = MeasurementSet_init ds) new.
Proof.
  revert rows0. induction ins as [|dom ins IH]; intros rows0; simpl.
  - intros [= <-]. exists []. rewrite app_nil_r. split; [reflexivity|split; [simpl; lia|constructor]].
  - destruct (get_measurements_list_api _ _ _ _ _ _ _) as [[ds|e|]|] eqn:Eg; try discriminate.
    + intros H. destruct (IH _ H) as (new & -> & Hlen & Hf).
      exists (MeasurementSet_init ds :: new). rewrite <- app_assoc. simpl.
      repeat split; [lia|]. constructor; [|exact Hf]. eauto.
    + intros H. destruct (IH _ H) as (new & -> & Hlen & Hf).
      exists new. repeat split; [lia|exact Hf].
Qed.

(** X16: the rows [days_from_config] gives for a [Config]: at most one
    (the general row) without inputs; otherwise at most one per input,
    and every row has its days sorted, one per calendar day of the range
    and at least one, so [dayset.days[0]] in [main] does not raise. *)
Theorem days_from_config_rows fuel aserver lserver c since until ins rows :
  cfg_since c = Some since -> cfg_until c = Some until -> cfg_inputs c = Some ins ->
  days_from_config fuel aserver lserver c = Some (Ret (Some rows)) ->
  (ins = [] -> (length rows <= 1)%nat) /\
  (ins <> [] -> (length rows <= length ins)%nat /\
     Forall (fun r => days r <> [] /\
               map start_day (days r) = map midnight (day_range (dt_day since) (n_days since until)))
       rows).
Proof.
  intros Hs Hu Hi. unfold days_from_config. rewrite Hs, Hu, Hi.
  destruct (negb (String.eqb (cfg_error c) OK)); [discriminate|].
  destruct ins as [|dom ins'].
  - destruct (get_measurements _ _ _ _ _ _); intros [= <-]; (split; [simpl; lia|congruence]).
  - destruct (rows_for_inputs fuel lserver since until (dom :: ins') []) as [[rs| |]|] eqn:Er;
      try discriminate.
    intros [= <-]. split; [discriminate|]. intros _.
    destruct (rows_for_inputs_rows _ _ _ _ _ _ _ Er) as (new & -> & Hlen & Hf).
    split; [exact Hlen|]. simpl.
    eapply Forall_impl; [exact Hf|]. intros r (d & ds & Hg & ->).
    assert (Hr := list_api_days_are_range _ _ _ _ _ _ _ _ Hg).
    assert (Hn := list_api_range_nonempty _ _ _ _ _ _ _ _ Hg).
    unfold MeasurementSet_init; simpl. rewrite (sort_by_day_sorted_id ds (range_sorted ds _ _ Hr)).
    split; [|exact Hr].
    intros ->. destruct (n_days since until); [lia|discriminate].
Qed.

Definition sample_config : cli_config := cfg_ok jan1 jan3 (Some "list.txt") ["a.org"; "b.org"]%string.

Lemma days_from_config_rows_witness :
  exists rows, days_from_config 1 empty_agg_server one_list_server sample_config
                 = Some (Ret (Some rows)) /\ length rows = 2%nat /\
    (["a.org"; "b.org"]%string <> [] -> (length rows <= 2)%nat /\
     Forall (fun r => days r <> [] /\
               map start_day (days r) = map midnight (day_range (dt_day jan1) (n_days jan1 jan3)))
       rows).
Proof.
  eexists. split; [vm_compute; reflexivity|]. split; [reflexivity|].
  exact (proj2 (days_from_config_rows 1 empty_agg_server one_list_server sample_config
                  jan1 jan3 ["a.org"; "b.org"]%string _ eq_refl eq_refl eq_refl
                  ltac:(vm_compute; reflexivity))).
Defined.

(** ** The weird-rate cell of [AOC.main] *)

(** X17: for a day built by [MeasurementDay.__init__], the table prints
    [NA] exactly when the day has no measurement or none of them is
    anomalous, failed or confirmed (a rate of 0 is falsy); otherwise it
    prints the rate, in red exactly when it reaches the critical rate. *)
Theorem weird_cell_cases crit mc ac fc sd inpt cc d :
  MeasurementDay_init mc ac fc sd inpt cc = Ret d ->
  (weird_cell crit (weird_behavior_ratio d) = NA <-> mc = 0 \/ cc + ac + fc = 0) /\
  (forall q red, weird_cell crit (weird_behavior_ratio d) = Rate q red ->
     (q == inject_Z (cc + ac + fc) / inject_Z mc)%Q /\ (red = true <-> (crit <= q)%Q)).
Proof.
  unfold MeasurementDay_init.
  destruct ((0 <=? mc) && (0 <=? ac) && (0 <=? fc) && (0 <=? cc)) eqn:Hnn; [|discriminate].
  rewrite !andb_true_iff, !Z.leb_le in Hnn.
  intros [= <-]. simpl. unfold ratio_of.
  destruct (Z.eqb_spec mc 0) as [E|E]; simpl.
  - split; [split; [intros _; left; exact E|reflexivity]|discriminate].
  - assert (Hq : Qeq_bool (inject_Z (cc + ac + fc) / inject_Z mc) 0 = true <-> cc + ac + fc = 0).
    { rewrite Qeq_bool_iff. split.
      - intros Hz. apply inject_Z_injective.
        rewrite <- (Qmult_div_r (inject_Z (cc + ac + fc)) (inject_Z mc)).
        + rewrite Hz. rewrite Qmult_0_r. reflexivity.
        + change 0%Q with (inject_Z 0). rewrite inject_Z_injective. exact E.
      - intros ->. reflexivity. }
    destruct (Qeq_bool _ 0) eqn:Ez.
    + split; [split; [intros _; right; apply Hq; reflexivity|reflexivity]|discriminate].
    + split.
      * split; [discriminate|]. intros [?|H]; [contradiction|].
        apply Hq in H. congruence.
      * intros q red [= <- <-]. split; [reflexivity|]. apply Qle_bool_iff.
Qed.

Lemma weird_cell_cases_witness :
  MeasurementDay_init 4 1 0 (midnight 0) (Some "a") 0
    = Ret (Build_MeasurementDay 4 1 0 0 (midnight 0) (Some "a")
             (Some (1 # 4)) (Some (0 # 4)) (Some (0 # 4)) (Some (1 # 4))) /\
  weird_cell (1 # 10) (Some (1 # 4)) = Rate (1 # 4) true /\
  (weird_cell (1 # 10) (Some (1 # 4)) = NA <-> 4 = 0 \/ 0 + 1 + 0 = 0).
Proof.
  assert (H : MeasurementDay_init 4 1 0 (midnight 0) (Some "a") 0
    = Ret (Build_MeasurementDay 4 1 0 0 (midnight 0) (Some "a")
             (Some (1 # 4)) (Some (0 # 4)) (Some (0 # 4)) (Some (1 # 4)))) by reflexivity.
  split; [exact H|]. split; [reflexivity|].
  exact (proj1 (weird_cell_cases (1 # 10) 4 1 0 (midnight 0) (Some "a") 0 _ H)).
Defined.

(** ** [MeasurementSet.get_days_by_domain] *)

(** X18: [get_days_by_domain] raises on every set built from at least one
    day, whatever the domain asked for, and gives the empty list only for
    the set of no day. *)
Theorem get_days_by_domain_raises (ds : list MeasurementDay) (domain : option string) :
  get_days_by_domain (MeasurementSet_init ds) domain =
    match ds with [] => Ret [] | _ :: _ => Raise end.
Proof.
  unfold get_days_by_domain, MeasurementSet_init; simpl.
  assert (Hl := Permutation_length (sort_by_day_perm ds)).
  destruct ds as [|d ds]; destruct (sort_by_day _) as [|x l]; simpl in *;
    try discriminate; reflexivity.
Qed.

(** The specification's example for C4 (2024-01-01 to 2024-01-03 without
    records), and the same range with one record on 2024-01-02. *)
Lemma list_api_one_bucket_per_day_witness :
  (exists ds, get_measurements_list_api 1 empty_list_server jan1 jan3 None "VE" None
                = Some (Ret ds) /\ Z.of_nat (length ds) = 3) /\
  (exists ds, get_measurements_list_api 1 one_list_server jan1 jan3 None "VE" None
                = Some (Ret ds) /\ Z.of_nat (length ds) = 3 /\
              sum_of measurement_count ds = 1).
Proof.
  split.
  - destruct (proj2 (list_api_one_bucket_per_day 1 empty_list_server jan1 jan3 None "VE" None)
                eq_refl eq_refl) as (ds & Hds & Hlen & _).
    exists ds. split; [exact Hds|]. rewrite Hlen. reflexivity.
  - eexists. split; [reflexivity|]. split; [|reflexivity].
    destruct (proj1 (list_api_one_bucket_per_day 1 one_list_server jan1 jan3 None "VE" None)
                _ eq_refl) as (_ & Hlen & _).
    rewrite Hlen. reflexivity.
Defined.
